(** * FrisPy: the equations of motion of a spinning disc

    A shallow embedding of [frispy/equations_of_motion.py] (class [EOM]) and
    of the numpy, math and scipy operations it calls, followed by the
    properties of the derivative evaluation.

    Numbers.  The program computes on IEEE double precision numbers.  It is
    embedded twice.
    - In the first part a float is a real number or one of the three
      special values [+inf], [-inf] and [nan], with the IEEE rules for
      them: a division by zero gives an infinity or nan and raises nothing,
      nan spreads through every operation and compares false with
      everything.  On real numbers the operations are exact: there is no
      rounding, no overflow, no underflow and no sign of zero.  The
      theorems on the code are stated so that they use of this arithmetic
      only what doubles have as well (the rules of the special values,
      products and sums with zero, the order of the operations), with
      their hypotheses on the values the code computes; the theorems that
      rest on exact arithmetic say so.
    - In the module [binary64] the same methods compute on the doubles of
      the machine.  It serves to evaluate the code where rounding, overflow
      or underflow decide.

    Exceptions.  The [raise]s reachable from [compute_derivatives] are the
    [ValueError] of unpacking a sequence that has not 13 entries, the
    [ValueError] of scipy's [Rotation] constructor, and the
    [ZeroDivisionError] of Python's division of two floats, which the
    attributes of the model are.  They are the constructors of
    [exception]; fallible functions return a [result]. *)

From Stdlib Require Import Reals Lra Psatz List Bool.
From Stdlib Require String.
From Stdlib Require Floats.
Import ListNotations.
Open Scope R_scope.

(** ** Exceptions and results *)

Inductive exception : Type :=
| ValueError_unpack            (* not enough / too many values to unpack *)
| ValueError_zero_norm         (* Found zero norm quaternions in `quat`. *)
| ZeroDivisionError            (* float division by zero *)
| KeyError                     (* a dict without the key *)
| TypeError.                   (* a value of another kind than expected *)

Inductive result (A : Type) : Type :=
| Ok (a : A)
| Raise (e : exception).

Arguments Ok {A} a.
Arguments Raise {A} e.

Definition bind {A B : Type} (m : result A) (k : A -> result B) : result B :=
  match m with
  | Ok a => k a
  | Raise e => Raise e
  end.

Notation "x <- m ;; k" := (bind m (fun x => k))
  (at level 61, m at next level, right associativity).

Definition returns {A : Type} (m : result A) : Prop :=
  exists a, m = Ok a.

(** ** Floats *)

Inductive float : Type :=
| fin (r : R)
| pinf
| ninf
| nan.

Definition is_finite (x : float) : bool :=
  match x with fin _ => true | _ => false end.

Definition isnan (x : float) : bool :=
  match x with nan => true | _ => false end.

Definition isinf (x : float) : bool :=
  match x with pinf | ninf => true | _ => false end.

(** the infinity with the sign of [r]; nan for [r = 0] (as in [inf * 0]
    and [0 / 0]) *)
Definition inf_of_sign (r : R) : float :=
  if Rlt_dec 0 r then pinf else if Rlt_dec r 0 then ninf else nan.

Definition fneg (x : float) : float :=
  match x with
  | fin a => fin (- a)
  | pinf => ninf
  | ninf => pinf
  | nan => nan
  end.

Definition fabs (x : float) : float :=
  match x with
  | fin a => fin (Rabs a)
  | pinf | ninf => pinf
  | nan => nan
  end.

Definition fadd (x y : float) : float :=
  match x, y with
  | fin a, fin b => fin (a + b)
  | nan, _ => nan
  | _, nan => nan
  | pinf, ninf => nan
  | ninf, pinf => nan
  | pinf, _ => pinf
  | _, pinf => pinf
  | ninf, _ => ninf
  | _, ninf => ninf
  end.

Definition fsub (x y : float) : float := fadd x (fneg y).

Definition fmul (x y : float) : float :=
  match x, y with
  | fin a, fin b => fin (a * b)
  | nan, _ => nan
  | _, nan => nan
  | fin a, pinf => inf_of_sign a
  | pinf, fin a => inf_of_sign a
  | fin a, ninf => inf_of_sign (- a)
  | ninf, fin a => inf_of_sign (- a)
  | pinf, pinf => pinf
  | ninf, ninf => pinf
  | pinf, ninf => ninf
  | ninf, pinf => ninf
  end.

(** numpy's true division: a zero divisor gives an infinity, or nan for
    [0 / 0], with a RuntimeWarning and no exception *)
Definition fdiv (x y : float) : float :=
  match x, y with
  | nan, _ => nan
  | _, nan => nan
  | fin a, fin b => if Req_dec_T b 0 then inf_of_sign a else fin (a / b)
  | fin _, pinf => fin 0
  | fin _, ninf => fin 0
  | pinf, fin b => if Rlt_dec b 0 then ninf else pinf
  | ninf, fin b => if Rlt_dec b 0 then pinf else ninf
  | pinf, pinf => nan
  | pinf, ninf => nan
  | ninf, pinf => nan
  | ninf, ninf => nan
  end.

Definition fsqrt (x : float) : float :=
  match x with
  | fin a => if Rlt_dec a 0 then nan else fin (sqrt a)
  | pinf => pinf
  | ninf => nan
  | nan => nan
  end.

(** [np.arctan] *)
Definition arctan (x : float) : float :=
  match x with
  | fin a => fin (atan a)
  | pinf => fin (PI / 2)
  | ninf => fin (- (PI / 2))
  | nan => nan
  end.

(** [x / y] on two Python floats: a zero divisor raises, where numpy's
    division returns an infinity or nan *)
Definition pydiv (x y : float) : result float :=
  match y with
  | fin b => if Req_dec_T b 0 then Raise ZeroDivisionError else Ok (fdiv x y)
  | _ => Ok (fdiv x y)
  end.

(** [x == y] *)
Definition feqb (x y : float) : bool :=
  match x, y with
  | fin a, fin b => if Req_dec_T a b then true else false
  | pinf, pinf => true
  | ninf, ninf => true
  | _, _ => false
  end.

(** [x <= y] *)
Definition fleb (x y : float) : bool :=
  match x, y with
  | fin a, fin b => if Rle_dec a b then true else false
  | nan, _ => false
  | _, nan => false
  | ninf, _ => true
  | _, pinf => true
  | _, _ => false
  end.

Declare Scope fl_scope.
Delimit Scope fl_scope with fl.
Bind Scope fl_scope with float.
Notation "x + y" := (fadd x y) : fl_scope.
Notation "x - y" := (fsub x y) : fl_scope.
Notation "x * y" := (fmul x y) : fl_scope.
Notation "x / y" := (fdiv x y) : fl_scope.
Notation "- x" := (fneg x) : fl_scope.

(** ** Vectors of real numbers

    The entries of an array that holds no special value, with the exact
    operations on them. *)

Module vec.

Record t3 : Type := mk3 { i0 : R; i1 : R; i2 : R }.
Record t4 : Type := mk4 { j0 : R; j1 : R; j2 : R; j3 : R }.

Definition add (a b : t3) : t3 :=
  mk3 (i0 a + i0 b) (i1 a + i1 b) (i2 a + i2 b).
Definition sub (a b : t3) : t3 :=
  mk3 (i0 a - i0 b) (i1 a - i1 b) (i2 a - i2 b).
Definition scale (s : R) (a : t3) : t3 :=
  mk3 (s * i0 a) (s * i1 a) (s * i2 a).
Definition dot (a b : t3) : R :=
  i0 a * i0 b + i1 a * i1 b + i2 a * i2 b.
Definition cross (a b : t3) : t3 :=
  mk3 (i1 a * i2 b - i2 a * i1 b)
      (i2 a * i0 b - i0 a * i2 b)
      (i0 a * i1 b - i1 a * i0 b).
Definition norm (a : t3) : R := sqrt (dot a a).

Definition dot4 (p q : t4) : R :=
  j0 p * j0 q + j1 p * j1 q + j2 p * j2 q + j3 p * j3 q.
Definition norm4 (q : t4) : R := sqrt (dot4 q q).
Definition scale4 (s : R) (q : t4) : t4 :=
  mk4 (s * j0 q) (s * j1 q) (s * j2 q) (s * j3 q).

(** Hamilton's product of two quaternions, scalar last *)
Definition hamilton (p q : t4) : t4 :=
  mk4 (j3 p * j0 q + j3 q * j0 p + (j1 p * j2 q - j2 p * j1 q))
      (j3 p * j1 q + j3 q * j1 p + (j2 p * j0 q - j0 p * j2 q))
      (j3 p * j2 q + j3 q * j2 p + (j0 p * j1 q - j1 p * j0 q))
      (j3 p * j3 q - (j0 p * j0 q + j1 p * j1 q + j2 p * j2 q)).

(** the image of the axis (0, 0, 1) under the rotation of the quaternion *)
Definition normal (q : t4) : t3 :=
  mk3 (2 * (j0 q * j2 q + j1 q * j3 q))
      (2 * (j1 q * j2 q - j0 q * j3 q))
      (- (j0 q * j0 q) - j1 q * j1 q + j2 q * j2 q + j3 q * j3 q).

(** the part of [v] orthogonal to the normal *)
Definition in_plane (q : t4) (v : t3) : t3 :=
  sub v (scale (dot v (normal q)) (normal q)).

End vec.

(** ** numpy: arrays of three and of four floats *)

Open Scope fl_scope.

Module np.

Record array3 : Type := mk3 { i0 : float; i1 : float; i2 : float }.
Record array4 : Type :=
  mk4 { j0 : float; j1 : float; j2 : float; j3 : float }.
(** a 3x3 matrix, by rows *)
Record matrix3 : Type := mkM { row0 : array3; row1 : array3; row2 : array3 }.

(** the array of a vector of reals *)
Definition fin3 (v : vec.t3) : array3 :=
  mk3 (fin (vec.i0 v)) (fin (vec.i1 v)) (fin (vec.i2 v)).
Definition fin4 (q : vec.t4) : array4 :=
  mk4 (fin (vec.j0 q)) (fin (vec.j1 q)) (fin (vec.j2 q)) (fin (vec.j3 q)).

Definition nan3 : array3 := mk3 nan nan nan.
Definition nan4 : array4 := mk4 nan nan nan nan.

Definition add (a b : array3) : array3 :=
  mk3 (i0 a + i0 b) (i1 a + i1 b) (i2 a + i2 b).
Definition sub (a b : array3) : array3 :=
  mk3 (i0 a - i0 b) (i1 a - i1 b) (i2 a - i2 b).
Definition neg (a : array3) : array3 :=
  mk3 (- i0 a) (- i1 a) (- i2 a).
(** [s * a] and [a * s], a scalar broadcast over an array *)
Definition smul (s : float) (a : array3) : array3 :=
  mk3 (s * i0 a) (s * i1 a) (s * i2 a).
Definition muls (a : array3) (s : float) : array3 :=
  mk3 (i0 a * s) (i1 a * s) (i2 a * s).
(** [a / s] *)
Definition divs (a : array3) (s : float) : array3 :=
  mk3 (i0 a / s) (i1 a / s) (i2 a / s).

(** [a @ b] on two vectors *)
Definition dot (a b : array3) : float :=
  i0 a * i0 b + i1 a * i1 b + i2 a * i2 b.
(** [np.cross(a, b)] *)
Definition cross (a b : array3) : array3 :=
  mk3 (i1 a * i2 b - i2 a * i1 b)
      (i2 a * i0 b - i0 a * i2 b)
      (i0 a * i1 b - i1 a * i0 b).
(** [np.linalg.norm(a)], the 2-norm *)
Definition norm (a : array3) : float := fsqrt (dot a a).
(** [M @ v] *)
Definition matvec (M : matrix3) (v : array3) : array3 :=
  mk3 (dot (row0 M) v) (dot (row1 M) v) (dot (row2 M) v).

Definition dot4 (p q : array4) : float :=
  j0 p * j0 q + j1 p * j1 q + j2 p * j2 q + j3 p * j3 q.
Definition norm4 (q : array4) : float := fsqrt (dot4 q q).
Definition muls4 (q : array4) (s : float) : array4 :=
  mk4 (j0 q * s) (j1 q * s) (j2 q * s) (j3 q * s).
Definition divs4 (q : array4) (s : float) : array4 :=
  mk4 (j0 q / s) (j1 q / s) (j2 q / s) (j3 q / s).

End np.

(** ** math.isclose, with its default tolerances

    [math.isclose(a, b, rel_tol=1e-09, abs_tol=0.0)]: equal values are
    close and an infinity is close to nothing else; otherwise the distance
    is compared with the relative tolerance applied to either argument, and
    with the absolute tolerance. *)

Module math.

Definition rel_tol : float := fin 1e-9.
Definition abs_tol : float := fin 0.

Definition isclose (a b : float) : bool :=
  if feqb a b then true
  else if isinf a || isinf b then false
  else
    let diff := fabs (b - a) in
    fleb diff (fabs (rel_tol * b)) || fleb diff (fabs (rel_tol * a))
    || fleb diff abs_tol.

End math.

(** ** scipy.spatial.transform.Rotation

    A rotation object holds a quaternion in scalar-last order (x, y, z, w),
    normalised when the object is built.  The constructor raises its
    [ValueError] on a quaternion of norm zero.  What it does with a norm
    that is nan is scipy's own matter and not to be read off the sources of
    this repository; it is the parameter [rejects_nan] of the functions that
    build a rotation.  (The compiled constructor of scipy 1.6 and later
    divides by the norm, then raises the same [ValueError] when the norm is
    nan: [rejects_nan = true].) *)

Module Rotation.

Record t : Type := mk { quat : np.array4 }.

(** [Rotation.from_quat(q)] *)
Definition from_quat (rejects_nan : bool) (q : np.array4) : result t :=
  let norm := np.norm4 q in
  if feqb norm (fin 0) then Raise ValueError_zero_norm
  else if isnan norm && rejects_nan then Raise ValueError_zero_norm
  else Ok (mk (np.divs4 q norm)).

(** [r.as_quat()] *)
Definition as_quat (r : t) : np.array4 := quat r.

(** [r.as_matrix()] *)
Definition as_matrix (r : t) : np.matrix3 :=
  let x := np.j0 (quat r) in
  let y := np.j1 (quat r) in
  let z := np.j2 (quat r) in
  let w := np.j3 (quat r) in
  let x2 := x * x in
  let y2 := y * y in
  let z2 := z * z in
  let w2 := w * w in
  let xy := x * y in
  let zw := z * w in
  let xz := x * z in
  let yw := y * w in
  let yz := y * z in
  let xw := x * w in
  np.mkM
    (np.mk3 (x2 - y2 - z2 + w2) (fin 2 * (xy - zw)) (fin 2 * (xz + yw)))
    (np.mk3 (fin 2 * (xy + zw)) (- x2 + y2 - z2 + w2) (fin 2 * (yz - xw)))
    (np.mk3 (fin 2 * (xz - yw)) (fin 2 * (yz + xw)) (- x2 - y2 + z2 + w2)).

(** the quaternion product behind [p * q] (Hamilton's, scalar last) *)
Definition compose_quat (p q : np.array4) : np.array4 :=
  let pv := np.mk3 (np.j0 p) (np.j1 p) (np.j2 p) in
  let qv := np.mk3 (np.j0 q) (np.j1 q) (np.j2 q) in
  let c := np.cross pv qv in
  np.mk4
    (np.j3 p * np.j0 q + np.j3 q * np.j0 p + np.i0 c)
    (np.j3 p * np.j1 q + np.j3 q * np.j1 p + np.i1 c)
    (np.j3 p * np.j2 q + np.j3 q * np.j2 p + np.i2 c)
    (np.j3 p * np.j3 q - np.dot pv qv).

(** [p * q]: the product is handed to the constructor, which normalises
    it again *)
Definition mul (rejects_nan : bool) (p q : t) : result t :=
  from_quat rejects_nan (compose_quat (quat p) (quat q)).

End Rotation.

(** ** The collaborators: Environment and Model *)

(** Modelled from the spec: the class [frispy.environment.Environment] is
    not among the sources; the fields are the ones [EOM] reads, with the
    types section 6 of the specification gives them. *)
Record Environment : Type := mkEnvironment {
  air_density : float;
  g : float;
  grav_vector : np.array3
}.

(** Modelled from the spec: the class [frispy.model.Model] is not among the
    sources; the fields and the coefficient functions are the ones [EOM]
    reads and calls, with the arities of section 6 of the specification.
    The coefficient functions are opaque here, and raise nothing. *)
Record Model : Type := mkModel {
  mass : float;
  area : float;
  diameter : float;
  I_xx : float;
  I_zz : float;
  dampening_factor : float;
  dampening_z : float;
  C_lift : float -> float;
  C_drag : float -> float;
  C_side : float -> float -> float -> float;
  C_x : float -> float -> float -> float;
  C_y : float -> float
}.

(** ** The dictionary of intermediate quantities

    [res] is a fresh dict on every call, filled key by key in a fixed order
    and never read before it is written; its keys are the fields of the
    records below, one record for each stage that returns it. *)

Record UnitVectors : Type := mkUnitVectors {
  xhat : np.array3;
  yhat : np.array3;
  zhat : np.array3
}.

(** the dict returned by [calculate_intermediate_quantities] *)
Record Quantities : Type := mkQuantities {
  unit_vectors : UnitVectors;
  angle_of_attack : float;
  w : np.array3
}.

(** the dict returned by [compute_forces]: six more keys *)
Record Forces : Type := mkForces {
  quantities : Quantities;
  F_lift : np.array3;
  F_side : np.array3;
  F_drag : np.array3;
  F_grav : np.array3;
  F_total : np.array3;
  Acc : np.array3
}.

(** the dict returned by [compute_torques]: three more keys *)
Record Torques : Type := mkTorques {
  forces : Forces;
  torque_amplitude : float;
  T : np.array3;
  dq : np.array4
}.

(** ** class EOM *)

Record EOM : Type := mkEOM {
  _environment : Environment;
  _model : Model
}.

Definition environment (self : EOM) : Environment := _environment self.
Definition model (self : EOM) : Model := _model self.

(** [EOM.calculate_intermediate_quantities] (a static method) *)
Definition calculate_intermediate_quantities
    (rotation : Rotation.t) (velocity ang_velocity : np.array3) : Quantities :=
  let R_ := Rotation.as_matrix rotation in
  let zhat := np.matvec R_ (np.mk3 (fin 0) (fin 0) (fin 1)) in
  let v_dot_zhat := np.dot velocity zhat in
  let v_in_plane := np.sub velocity (np.muls zhat v_dot_zhat) in
  let xhat := np.divs v_in_plane (np.norm v_in_plane) in
  let yhat := np.cross zhat xhat in
  let angle_of_attack := - arctan (v_dot_zhat / np.norm v_in_plane) in
  let w :=
    np.matvec R_ (np.mk3 (np.i0 ang_velocity) (np.i1 ang_velocity) (fin 0)) in
  {| unit_vectors := {| xhat := xhat; yhat := yhat; zhat := zhat |};
     angle_of_attack := angle_of_attack;
     w := w |}.

(** [EOM.compute_forces] *)
Definition compute_forces (self : EOM)
    (rotation : Rotation.t) (velocity ang_velocity : np.array3) : Forces :=
  let res := calculate_intermediate_quantities rotation velocity ang_velocity in
  let aoa := angle_of_attack res in
  let v_norm := np.norm velocity in
  let vhat := np.divs velocity v_norm in
  let force_amplitude :=
    fin 0.5 * air_density (environment self) * np.dot velocity velocity
    * area (model self) in
  let F_lift :=
    np.smul (C_lift (model self) aoa * force_amplitude)
            (np.cross vhat (yhat (unit_vectors res))) in
  let F_side :=
    np.smul (C_side (model self) aoa v_norm (np.i2 ang_velocity)
             * force_amplitude)
            (yhat (unit_vectors res)) in
  let F_drag :=
    np.smul (C_drag (model self) aoa * force_amplitude) (np.neg vhat) in
  let F_grav :=
    np.smul (mass (model self) * g (environment self))
            (grav_vector (environment self)) in
  let F_total := np.add (np.add (np.add F_lift F_drag) F_grav) F_side in
  let Acc := np.divs F_total (mass (model self)) in
  {| quantities := res; F_lift := F_lift; F_side := F_side;
     F_drag := F_drag; F_grav := F_grav; F_total := F_total; Acc := Acc |}.

(** [EOM.compute_wobble_precession]: the value it stores under ["T"].
    [wx], [wy] and [wz] are numpy floats, so the quotients of [acc] are
    numpy's; [delta_moment] and [i_xx] are attributes of the model, Python
    floats, and their quotient is Python's. *)
Definition compute_wobble_precession (self : EOM)
    (ang_velocity : np.array3) (torque : float) : result np.array3 :=
  let i_xx := I_xx (model self) in
  let i_zz := I_zz (model self) in
  let wx := np.i0 ang_velocity in
  let wy := np.i1 ang_velocity in
  let wz := np.i2 ang_velocity in
  let dampening := dampening_factor (model self) in
  let dampening_z := dampening_z (model self) in
  let acc :=
    np.muls (np.mk3 (wx * dampening / i_xx) (wy * dampening / i_xx)
                    (wz * dampening_z / i_zz))
            torque in
  let delta_moment := I_zz (model self) - I_xx (model self) in
  ratio <- pydiv delta_moment i_xx ;;
  Ok (np.add acc
             (np.smul (ratio * fin 2 * wz) (np.mk3 (- wy) wx (fin 0)))).

(** the value of ["torque_amplitude"] *)
Definition torque_scale (self : EOM) (velocity : np.array3) : float :=
  fin 0.5 * air_density (environment self) * np.dot velocity velocity
  * diameter (model self) * area (model self).

(** the combined angular rate [w] of [compute_torques], as it stands when
    its norm is taken *)
Definition angular_rate (self : EOM)
    (velocity ang_velocity : np.array3) (res : Forces) : np.array3 :=
  let aoa := angle_of_attack (quantities res) in
  let torque := torque_scale self velocity in
  let i_zz := I_zz (model self) in
  let wz := np.i2 ang_velocity in
  let v_norm := np.norm velocity in
  let roll :=
    np.smul (C_y (model self) aoa * torque)
            (xhat (unit_vectors (quantities res))) in
  let pitch_up :=
    np.smul (C_x (model self) aoa v_norm wz * torque)
            (yhat (unit_vectors (quantities res))) in
  let wobble := w (quantities res) in
  np.add (np.divs (np.add roll pitch_up) (i_zz * wz)) wobble.

Section Methods.

(** scipy's way with a norm that is nan, see [Rotation] *)
Variable rejects_nan : bool.

(** [EOM.compute_torques] *)
Definition compute_torques (self : EOM)
    (velocity ang_velocity : np.array3) (rotation : Rotation.t)
    (res : Forces) : result Torques :=
  let torque_amplitude := torque_scale self velocity in
  let torque := torque_amplitude in
  let w := angular_rate self velocity ang_velocity res in
  let w_norm := np.norm w in
  wquat <-
    (if math.isclose (fin 0) w_norm
     then Rotation.from_quat rejects_nan
            (np.mk4 (fin 0) (fin 0) (fin 0) (fin 1))
     else
       wrot <- Rotation.from_quat rejects_nan
                 (np.mk4 (np.i0 w) (np.i1 w) (np.i2 w) (fin 0)) ;;
       Rotation.mul rejects_nan wrot rotation) ;;
  T <- compute_wobble_precession self ang_velocity torque ;;
  Ok {| forces := res;
        torque_amplitude := torque_amplitude;
        T := T;
        dq := np.divs4 (np.muls4 (Rotation.as_quat wquat) w_norm) (fin 2) |}.

(** [EOM.compute_derivatives]; [time] is the integrator's clock *)
Definition compute_derivatives (self : EOM)
    (time : float) (coordinates : list float) : result (list float) :=
  match coordinates with
  | [x; y; z; vx; vy; vz; qx; qy; qz; qw; dphi; dtheta; dgamma] =>
      let velocity := np.mk3 vx vy vz in
      rotation <- Rotation.from_quat rejects_nan (np.mk4 qx qy qz qw) ;;
      let ang_velocity := np.mk3 dphi dtheta dgamma in
      let result := compute_forces self rotation velocity ang_velocity in
      result <- compute_torques self velocity ang_velocity rotation result ;;
      Ok [ vx; vy; vz;
           np.i0 (Acc (forces result));
           np.i1 (Acc (forces result));
           np.i2 (Acc (forces result));
           np.j0 (dq result);
           np.j1 (dq result);
           np.j2 (dq result);
           np.j3 (dq result);
           np.i0 (T result);
           np.i1 (T result);
           np.i2 (T result) ]
  | _ => Raise ValueError_unpack
  end.

(** [EOM.expand_quaternion] (a static method) *)
Definition expand_quaternion (qx qy qz qw : float) : result Rotation.t :=
  Rotation.from_quat rejects_nan (np.mk4 qx qy qz qw).

End Methods.

(** ** Names for the locals of the resolver

    [disc_normal] and [in_plane_velocity] are the locals [zhat] and
    [v_in_plane] of [calculate_intermediate_quantities]; [normal_velocity]
    is its [v_dot_zhat]. *)

Definition disc_normal (rotation : Rotation.t) : np.array3 :=
  np.matvec (Rotation.as_matrix rotation) (np.mk3 (fin 0) (fin 0) (fin 1)).

Definition normal_velocity
    (rotation : Rotation.t) (velocity : np.array3) : float :=
  np.dot velocity (disc_normal rotation).

Definition in_plane_velocity
    (rotation : Rotation.t) (velocity : np.array3) : np.array3 :=
  np.sub velocity
         (np.muls (disc_normal rotation) (normal_velocity rotation velocity)).

(** the rest of [compute_torques] once [wquat] is there: the angular
    acceleration, then the dict with the value [dq] under its key *)
Definition torques_with (self : EOM) (velocity ang_velocity : np.array3)
    (res : Forces) (dq : np.array4) : result Torques :=
  T <- compute_wobble_precession self ang_velocity
         (torque_scale self velocity) ;;
  Ok {| forces := res;
        torque_amplitude := torque_scale self velocity;
        T := T;
        dq := dq |}.

(** ** The scenario of section 8 of the specification *)

Definition scenario_environment : Environment :=
  {| air_density := fin 1.225; g := fin 9.81;
     grav_vector := np.mk3 (fin 0) (fin 0) (fin (-1)) |}.

Definition scenario_model : Model :=
  {| mass := fin 0.175; area := fin 0.058; diameter := fin 0.27;
     I_xx := fin 0.002; I_zz := fin 0.004;
     dampening_factor := fin 0; dampening_z := fin 0;
     C_lift := fun _ => fin 0.3;
     C_drag := fun _ => fin 0.1;
     C_side := fun _ _ _ => fin 0;
     C_x := fun _ _ _ => fin 0;
     C_y := fun _ => fin 0 |}.

Definition scenario_eom : EOM :=
  {| _environment := scenario_environment; _model := scenario_model |}.

(** the rotation object of the identity quaternion (0, 0, 0, 1) *)
Definition identity_rotation : Rotation.t :=
  Rotation.mk (np.mk4 (fin 0) (fin 0) (fin 0) (fin 1)).

(** position (0,0,1), velocity (10,0,0), identity orientation, pure spin *)
Definition scenario_state : list float :=
  [fin 0; fin 0; fin 1; fin 10; fin 0; fin 0;
   fin 0; fin 0; fin 0; fin 1; fin 0; fin 0; fin 50].

(** the scenario with every aerodynamic coefficient, both dampening
    factors and the gravity magnitude set to zero *)
Definition inert_environment : Environment :=
  {| air_density := fin 1.225; g := fin 0;
     grav_vector := np.mk3 (fin 0) (fin 0) (fin (-1)) |}.

Definition inert_model : Model :=
  {| mass := fin 0.175; area := fin 0.058; diameter := fin 0.27;
     I_xx := fin 0.002; I_zz := fin 0.004;
     dampening_factor := fin 0; dampening_z := fin 0;
     C_lift := fun _ => fin 0;
     C_drag := fun _ => fin 0;
     C_side := fun _ _ _ => fin 0;
     C_x := fun _ _ _ => fin 0;
     C_y := fun _ => fin 0 |}.

Definition inert_eom : EOM :=
  {| _environment := inert_environment; _model := inert_model |}.

Close Scope fl_scope.

(** ** The methods with their effects

    The same methods once more, as Python runs them: on a store.  The store
    holds the two attributes of the [EOM] object and the dict objects made
    so far; a dict is referred to by its index among them.  A method reads
    an attribute with [getattr] and could assign one with [setattr]; it
    makes a dict with [new_dict], and reads and writes it through its
    reference with [getitem] and [setitem], which raise the [KeyError] and
    the [TypeError] of Python on a missing key and on a value of another
    kind.  An exception leaves the store as it is at the [raise].  Arrays
    and rotation objects are values: the two additions in place, [w +=
    wobble] and [acc += ...], act on arrays the method has just made. *)

Module stateful.

Import String.

(** what a key of [res] holds *)
Inductive value : Type :=
| Float (x : float)
| Array3 (a : np.array3)
| Array4 (a : np.array4)
| Vectors (u : UnitVectors).

Definition dict : Type := list (string * value).

Record store : Type := mkStore {
  attributes : EOM;
  dicts : list dict
}.

Definition M (A : Type) : Type := store -> result A * store.

Definition ret {A : Type} (a : A) : M A := fun s => (Ok a, s).

Definition raise {A : Type} (e : exception) : M A := fun s => (Raise e, s).

Definition bindM {A B : Type} (m : M A) (k : A -> M B) : M B :=
  fun s =>
    match m s with
    | (Ok a, s') => k a s'
    | (Raise e, s') => (Raise e, s')
    end.

Notation "x <~ m ;; k" := (bindM m (fun x => k))
  (at level 61, m at next level, right associativity).
Notation "m ;;; k" := (bindM m (fun _ => k))
  (at level 61, right associativity).

(** a function that may raise and touches nothing *)
Definition lift {A : Type} (r : result A) : M A := fun s => (r, s).

(** [self.environment] and [self.model] *)
Definition getattr_environment : M Environment :=
  fun s => (Ok (_environment (attributes s)), s).
Definition getattr_model : M Model :=
  fun s => (Ok (_model (attributes s)), s).

(** [self._environment = e] and [self._model = m]: what an assignment to
    an attribute would do *)
Definition setattr_environment (e : Environment) : M unit :=
  fun s =>
    (Ok tt,
     {| attributes :=
          {| _environment := e; _model := _model (attributes s) |};
        dicts := dicts s |}).
Definition setattr_model (m : Model) : M unit :=
  fun s =>
    (Ok tt,
     {| attributes :=
          {| _environment := _environment (attributes s); _model := m |};
        dicts := dicts s |}).

(** dicts *)
Fixpoint lookup (d : dict) (k : string) : option value :=
  match d with
  | [] => None
  | (k', v) :: rest => if String.eqb k k' then Some v else lookup rest k
  end.

Fixpoint assign (d : dict) (k : string) (v : value) : dict :=
  match d with
  | [] => [(k, v)]
  | (k', v') :: rest =>
      if String.eqb k k' then (k', v) :: rest else (k', v') :: assign rest k v
  end.

Fixpoint replace_nth (ds : list dict) (r : nat) (d : dict) : list dict :=
  match ds, r with
  | [], _ => []
  | _ :: rest, O => d :: rest
  | d' :: rest, S r' => d' :: replace_nth rest r' d
  end.

(** a dict display [{k: v, ...}] *)
Definition new_dict (d : dict) : M nat :=
  fun s =>
    (Ok (List.length (dicts s)),
     {| attributes := attributes s; dicts := dicts s ++ [d] |}).

(** [res[k]] *)
Definition getitem (r : nat) (k : string) : M value :=
  fun s =>
    match nth_error (dicts s) r with
    | Some d =>
        match lookup d k with
        | Some v => (Ok v, s)
        | None => (Raise KeyError, s)
        end
    | None => (Raise KeyError, s)
    end.

(** [res[k] = v] *)
Definition setitem (r : nat) (k : string) (v : value) : M unit :=
  fun s =>
    match nth_error (dicts s) r with
    | Some d =>
        (Ok tt,
         {| attributes := attributes s;
            dicts := replace_nth (dicts s) r (assign d k v) |})
    | None => (Raise KeyError, s)
    end.

Definition get_float (r : nat) (k : string) : M float :=
  v <~ getitem r k ;;
  match v with Float x => ret x | _ => raise TypeError end.

Definition get_array3 (r : nat) (k : string) : M np.array3 :=
  v <~ getitem r k ;;
  match v with Array3 a => ret a | _ => raise TypeError end.

Definition get_array4 (r : nat) (k : string) : M np.array4 :=
  v <~ getitem r k ;;
  match v with Array4 a => ret a | _ => raise TypeError end.

Definition get_vectors (r : nat) (k : string) : M UnitVectors :=
  v <~ getitem r k ;;
  match v with Vectors u => ret u | _ => raise TypeError end.

Local Open Scope fl_scope.
Local Open Scope string_scope.

(** [EOM.calculate_intermediate_quantities] *)
Definition calculate_intermediate_quantities
    (rotation : Rotation.t) (velocity ang_velocity : np.array3) : M nat :=
  let R_ := Rotation.as_matrix rotation in
  let zhat := np.matvec R_ (np.mk3 (fin 0) (fin 0) (fin 1)) in
  let v_dot_zhat := np.dot velocity zhat in
  let v_in_plane := np.sub velocity (np.muls zhat v_dot_zhat) in
  let xhat := np.divs v_in_plane (np.norm v_in_plane) in
  let yhat := np.cross zhat xhat in
  let angle_of_attack := - arctan (v_dot_zhat / np.norm v_in_plane) in
  let w :=
    np.matvec R_ (np.mk3 (np.i0 ang_velocity) (np.i1 ang_velocity) (fin 0)) in
  new_dict
    [("unit_vectors",
      Vectors {| xhat := xhat; yhat := yhat; zhat := zhat |});
     ("angle_of_attack", Float angle_of_attack);
     ("w", Array3 w)].

(** [EOM.compute_forces] *)
Definition compute_forces
    (rotation : Rotation.t) (velocity ang_velocity : np.array3) : M nat :=
  res <~ calculate_intermediate_quantities rotation velocity ang_velocity ;;
  aoa <~ get_float res "angle_of_attack" ;;
  let v_norm := np.norm velocity in
  let vhat := np.divs velocity v_norm in
  environment <~ getattr_environment ;;
  model <~ getattr_model ;;
  let force_amplitude :=
    fin 0.5 * air_density environment * np.dot velocity velocity
    * area model in
  model <~ getattr_model ;;
  unit_vectors <~ get_vectors res "unit_vectors" ;;
  setitem res "F_lift"
    (Array3 (np.smul (C_lift model aoa * force_amplitude)
                     (np.cross vhat (yhat unit_vectors)))) ;;;
  model <~ getattr_model ;;
  unit_vectors <~ get_vectors res "unit_vectors" ;;
  setitem res "F_side"
    (Array3 (np.smul (C_side model aoa v_norm (np.i2 ang_velocity)
                      * force_amplitude)
                     (yhat unit_vectors))) ;;;
  model <~ getattr_model ;;
  setitem res "F_drag"
    (Array3 (np.smul (C_drag model aoa * force_amplitude) (np.neg vhat))) ;;;
  model <~ getattr_model ;;
  environment <~ getattr_environment ;;
  setitem res "F_grav"
    (Array3 (np.smul (mass model * g environment)
                     (grav_vector environment))) ;;;
  F_lift <~ get_array3 res "F_lift" ;;
  F_drag <~ get_array3 res "F_drag" ;;
  F_grav <~ get_array3 res "F_grav" ;;
  F_side <~ get_array3 res "F_side" ;;
  setitem res "F_total"
    (Array3 (np.add (np.add (np.add F_lift F_drag) F_grav) F_side)) ;;;
  F_total <~ get_array3 res "F_total" ;;
  model <~ getattr_model ;;
  setitem res "Acc" (Array3 (np.divs F_total (mass model))) ;;;
  ret res.

(** [EOM.compute_wobble_precession] *)
Definition compute_wobble_precession
    (ang_velocity : np.array3) (torque : float) (res : nat) : M unit :=
  model <~ getattr_model ;;
  let i_xx := I_xx model in
  model <~ getattr_model ;;
  let i_zz := I_zz model in
  let wx := np.i0 ang_velocity in
  let wy := np.i1 ang_velocity in
  let wz := np.i2 ang_velocity in
  model <~ getattr_model ;;
  let dampening := dampening_factor model in
  model <~ getattr_model ;;
  let dampening_z := dampening_z model in
  let acc :=
    np.muls (np.mk3 (wx * dampening / i_xx) (wy * dampening / i_xx)
                    (wz * dampening_z / i_zz))
            torque in
  model1 <~ getattr_model ;;
  model2 <~ getattr_model ;;
  let delta_moment := I_zz model1 - I_xx model2 in
  ratio <~ lift (pydiv delta_moment i_xx) ;;
  let acc :=
    np.add acc (np.smul (ratio * fin 2 * wz) (np.mk3 (- wy) wx (fin 0))) in
  setitem res "T" (Array3 acc).

Section Methods.

Variable rejects_nan : bool.

(** [EOM.compute_torques] *)
Definition compute_torques
    (velocity ang_velocity : np.array3) (rotation : Rotation.t) (res : nat)
  : M nat :=
  aoa <~ get_float res "angle_of_attack" ;;
  environment <~ getattr_environment ;;
  model1 <~ getattr_model ;;
  model2 <~ getattr_model ;;
  setitem res "torque_amplitude"
    (Float (fin 0.5 * air_density environment * np.dot velocity velocity
            * diameter model1 * area model2)) ;;;
  model <~ getattr_model ;;
  let i_xx := I_xx model in
  model <~ getattr_model ;;
  let i_zz := I_zz model in
  torque <~ get_float res "torque_amplitude" ;;
  let wz := np.i2 ang_velocity in
  let v_norm := np.norm velocity in
  model <~ getattr_model ;;
  unit_vectors <~ get_vectors res "unit_vectors" ;;
  let roll := np.smul (C_y model aoa * torque) (xhat unit_vectors) in
  model <~ getattr_model ;;
  unit_vectors <~ get_vectors res "unit_vectors" ;;
  let pitch_up :=
    np.smul (C_x model aoa v_norm wz * torque) (yhat unit_vectors) in
  wobble <~ get_array3 res "w" ;;
  let w := np.divs (np.add roll pitch_up) (i_zz * wz) in
  let w := np.add w wobble in
  let w_norm := np.norm w in
  wquat <~
    lift (if math.isclose (fin 0) w_norm
          then Rotation.from_quat rejects_nan
                 (np.mk4 (fin 0) (fin 0) (fin 0) (fin 1))
          else
            wrot <- Rotation.from_quat rejects_nan
                      (np.mk4 (np.i0 w) (np.i1 w) (np.i2 w) (fin 0)) ;;
            Rotation.mul rejects_nan wrot rotation) ;;
  compute_wobble_precession ang_velocity torque res ;;;
  setitem res "dq"
    (Array4 (np.divs4 (np.muls4 (Rotation.as_quat wquat) w_norm) (fin 2))) ;;;
  ret res.

(** [EOM.compute_derivatives] *)
Definition compute_derivatives (time : float) (coordinates : list float)
  : M (list float) :=
  match coordinates with
  | [x; y; z; vx; vy; vz; qx; qy; qz; qw; dphi; dtheta; dgamma] =>
      let velocity := np.mk3 vx vy vz in
      rotation <~ lift (Rotation.from_quat rejects_nan (np.mk4 qx qy qz qw)) ;;
      let ang_velocity := np.mk3 dphi dtheta dgamma in
      result <~ compute_forces rotation velocity ang_velocity ;;
      result <~ compute_torques velocity ang_velocity rotation result ;;
      Acc <~ get_array3 result "Acc" ;;
      dq <~ get_array4 result "dq" ;;
      T <~ get_array3 result "T" ;;
      ret [ vx; vy; vz;
            np.i0 Acc; np.i1 Acc; np.i2 Acc;
            np.j0 dq; np.j1 dq; np.j2 dq; np.j3 dq;
            np.i0 T; np.i1 T; np.i2 T ]
  | _ => raise ValueError_unpack
  end.

(** a session of the integrator: the calls one after the other on the
    store the one before has left *)
Fixpoint session (calls : list (float * list float)) (s : store)
  : list (result (list float)) * store :=
  match calls with
  | [] => ([], s)
  | (time, coordinates) :: rest =>
      let (r, s1) := compute_derivatives time coordinates s in
      let (rs, s2) := session rest s1 in
      (r :: rs, s2)
  end.

End Methods.

(** the dict a call of [compute_forces] leaves, key by key in the order of
    the assignments *)
Definition dict_of_forces (f : Forces) : dict :=
  [("unit_vectors", Vectors (unit_vectors (quantities f)));
   ("angle_of_attack", Float (angle_of_attack (quantities f)));
   ("w", Array3 (w (quantities f)));
   ("F_lift", Array3 (F_lift f));
   ("F_side", Array3 (F_side f));
   ("F_drag", Array3 (F_drag f));
   ("F_grav", Array3 (F_grav f));
   ("F_total", Array3 (F_total f));
   ("Acc", Array3 (Acc f))].

(** and the dict a call of [compute_torques] that returns leaves *)
Definition dict_of_torques (t : Torques) : dict :=
  (dict_of_forces (forces t)
   ++ [("torque_amplitude", Float (torque_amplitude t));
       ("T", Array3 (T t));
       ("dq", Array4 (dq t))])%list.

(** a store that has the attributes of [s] and, after its dicts, the
    dicts [ds] *)
Definition extends (s : store) (ds : list dict)
  : store :=
  {| attributes := attributes s;
     dicts := (dicts s ++ ds)%list |}.

End stateful.

(** ** The program on IEEE doubles

    The same methods once more, on the binary64 numbers of the machine
    ([PrimFloat]: rounding to nearest, overflow to an infinity, underflow
    to zero, signed zeros), for evaluating the code at concrete inputs
    where rounding, overflow or underflow decide.  numpy's [arctan] is the
    C library's [atan], which is accurate to the last bits but not fixed
    bit for bit: it is the parameter [np_arctan] of the methods that reach
    it.  The sums of [@] and of [np.linalg.norm] are taken from left to
    right. *)

Module binary64.

Import PrimFloat.
Local Open Scope float_scope.

(** [x / y] on two Python floats *)
Definition pydiv (x y : float) : result float :=
  if y =? 0 then Raise ZeroDivisionError else Ok (x / y).

Module np.

Record array3 : Type := mk3 { i0 : float; i1 : float; i2 : float }.
Record array4 : Type :=
  mk4 { j0 : float; j1 : float; j2 : float; j3 : float }.
Record matrix3 : Type := mkM { row0 : array3; row1 : array3; row2 : array3 }.

Definition add (a b : array3) : array3 :=
  mk3 (i0 a + i0 b) (i1 a + i1 b) (i2 a + i2 b).
Definition sub (a b : array3) : array3 :=
  mk3 (i0 a - i0 b) (i1 a - i1 b) (i2 a - i2 b).
Definition neg (a : array3) : array3 :=
  mk3 (- i0 a) (- i1 a) (- i2 a).
Definition smul (s : float) (a : array3) : array3 :=
  mk3 (s * i0 a) (s * i1 a) (s * i2 a).
Definition muls (a : array3) (s : float) : array3 :=
  mk3 (i0 a * s) (i1 a * s) (i2 a * s).
Definition divs (a : array3) (s : float) : array3 :=
  mk3 (i0 a / s) (i1 a / s) (i2 a / s).
Definition dot (a b : array3) : float :=
  i0 a * i0 b + i1 a * i1 b + i2 a * i2 b.
Definition cross (a b : array3) : array3 :=
  mk3 (i1 a * i2 b - i2 a * i1 b)
      (i2 a * i0 b - i0 a * i2 b)
      (i0 a * i1 b - i1 a * i0 b).
Definition norm (a : array3) : float := sqrt (dot a a).
Definition matvec (M : matrix3) (v : array3) : array3 :=
  mk3 (dot (row0 M) v) (dot (row1 M) v) (dot (row2 M) v).
Definition dot4 (p q : array4) : float :=
  j0 p * j0 q + j1 p * j1 q + j2 p * j2 q + j3 p * j3 q.
Definition norm4 (q : array4) : float := sqrt (dot4 q q).
Definition muls4 (q : array4) (s : float) : array4 :=
  mk4 (j0 q * s) (j1 q * s) (j2 q * s) (j3 q * s).
Definition divs4 (q : array4) (s : float) : array4 :=
  mk4 (j0 q / s) (j1 q / s) (j2 q / s) (j3 q / s).

End np.

Module math.

(** the double nearest to 1e-09 *)
Definition rel_tol : float := 0x1.12e0be826d695p-30.
Definition abs_tol : float := 0.

Definition isclose (a b : float) : bool :=
  if a =? b then true
  else if is_infinity a || is_infinity b then false
  else
    let diff := abs (b - a) in
    (diff <=? abs (rel_tol * b)) || (diff <=? abs (rel_tol * a))
    || (diff <=? abs_tol).

End math.

Module Rotation.

Record t : Type := mk { quat : np.array4 }.

Definition from_quat (rejects_nan : bool) (q : np.array4) : result t :=
  let norm := np.norm4 q in
  if norm =? 0 then Raise ValueError_zero_norm
  else if is_nan norm && rejects_nan then Raise ValueError_zero_norm
  else Ok (mk (np.divs4 q norm)).

Definition as_quat (r : t) : np.array4 := quat r.

Definition as_matrix (r : t) : np.matrix3 :=
  let x := np.j0 (quat r) in
  let y := np.j1 (quat r) in
  let z := np.j2 (quat r) in
  let w := np.j3 (quat r) in
  let x2 := x * x in
  let y2 := y * y in
  let z2 := z * z in
  let w2 := w * w in
  let xy := x * y in
  let zw := z * w in
  let xz := x * z in
  let yw := y * w in
  let yz := y * z in
  let xw := x * w in
  np.mkM
    (np.mk3 (x2 - y2 - z2 + w2) (2 * (xy - zw)) (2 * (xz + yw)))
    (np.mk3 (2 * (xy + zw)) (- x2 + y2 - z2 + w2) (2 * (yz - xw)))
    (np.mk3 (2 * (xz - yw)) (2 * (yz + xw)) (- x2 - y2 + z2 + w2)).

Definition compose_quat (p q : np.array4) : np.array4 :=
  let pv := np.mk3 (np.j0 p) (np.j1 p) (np.j2 p) in
  let qv := np.mk3 (np.j0 q) (np.j1 q) (np.j2 q) in
  let c := np.cross pv qv in
  np.mk4
    (np.j3 p * np.j0 q + np.j3 q * np.j0 p + np.i0 c)
    (np.j3 p * np.j1 q + np.j3 q * np.j1 p + np.i1 c)
    (np.j3 p * np.j2 q + np.j3 q * np.j2 p + np.i2 c)
    (np.j3 p * np.j3 q - np.dot pv qv).

Definition mul (rejects_nan : bool) (p q : t) : result t :=
  from_quat rejects_nan (compose_quat (quat p) (quat q)).

End Rotation.

(** Modelled from the spec: the collaborators, as in the first part *)
Record Environment : Type := mkEnvironment {
  air_density : float;
  g : float;
  grav_vector : np.array3
}.

Record Model : Type := mkModel {
  mass : float;
  area : float;
  diameter : float;
  I_xx : float;
  I_zz : float;
  dampening_factor : float;
  dampening_z : float;
  C_lift : float -> float;
  C_drag : float -> float;
  C_side : float -> float -> float -> float;
  C_x : float -> float -> float -> float;
  C_y : float -> float
}.

Record UnitVectors : Type := mkUnitVectors {
  xhat : np.array3;
  yhat : np.array3;
  zhat : np.array3
}.

Record Quantities : Type := mkQuantities {
  unit_vectors : UnitVectors;
  angle_of_attack : float;
  w : np.array3
}.

Record Forces : Type := mkForces {
  quantities : Quantities;
  F_lift : np.array3;
  F_side : np.array3;
  F_drag : np.array3;
  F_grav : np.array3;
  F_total : np.array3;
  Acc : np.array3
}.

Record Torques : Type := mkTorques {
  forces : Forces;
  torque_amplitude : float;
  T : np.array3;
  dq : np.array4
}.

Record EOM : Type := mkEOM {
  _environment : Environment;
  _model : Model
}.

Definition environment (self : EOM) : Environment := _environment self.
Definition model (self : EOM) : Model := _model self.

(** [EOM.expand_quaternion] *)
Definition expand_quaternion (rejects_nan : bool) (qx qy qz qw : float)
  : result Rotation.t :=
  Rotation.from_quat rejects_nan (np.mk4 qx qy qz qw).

(** [EOM.compute_wobble_precession] *)
Definition compute_wobble_precession (self : EOM)
    (ang_velocity : np.array3) (torque : float) : result np.array3 :=
  let i_xx := I_xx (model self) in
  let i_zz := I_zz (model self) in
  let wx := np.i0 ang_velocity in
  let wy := np.i1 ang_velocity in
  let wz := np.i2 ang_velocity in
  let dampening := dampening_factor (model self) in
  let dampening_z := dampening_z (model self) in
  let acc :=
    np.muls (np.mk3 (wx * dampening / i_xx) (wy * dampening / i_xx)
                    (wz * dampening_z / i_zz))
            torque in
  let delta_moment := I_zz (model self) - I_xx (model self) in
  ratio <- pydiv delta_moment i_xx ;;
  Ok (np.add acc (np.smul (ratio * 2 * wz) (np.mk3 (- wy) wx 0))).

Section Methods.

(** numpy's [arctan] *)
Variable np_arctan : float -> float.

(** scipy's way with a norm that is nan *)
Variable rejects_nan : bool.

(** [EOM.calculate_intermediate_quantities] *)
Definition calculate_intermediate_quantities
    (rotation : Rotation.t) (velocity ang_velocity : np.array3) : Quantities :=
  let R_ := Rotation.as_matrix rotation in
  let zhat := np.matvec R_ (np.mk3 0 0 1) in
  let v_dot_zhat := np.dot velocity zhat in
  let v_in_plane := np.sub velocity (np.muls zhat v_dot_zhat) in
  let xhat := np.divs v_in_plane (np.norm v_in_plane) in
  let yhat := np.cross zhat xhat in
  let angle_of_attack := - np_arctan (v_dot_zhat / np.norm v_in_plane) in
  let w :=
    np.matvec R_ (np.mk3 (np.i0 ang_velocity) (np.i1 ang_velocity) 0) in
  {| unit_vectors := {| xhat := xhat; yhat := yhat; zhat := zhat |};
     angle_of_attack := angle_of_attack;
     w := w |}.

(** [EOM.compute_forces] *)
Definition compute_forces (self : EOM)
    (rotation : Rotation.t) (velocity ang_velocity : np.array3) : Forces :=
  let res := calculate_intermediate_quantities rotation velocity ang_velocity in
  let aoa := angle_of_attack res in
  let v_norm := np.norm velocity in
  let vhat := np.divs velocity v_norm in
  let force_amplitude :=
    0.5 * air_density (environment self) * np.dot velocity velocity
    * area (model self) in
  let F_lift :=
    np.smul (C_lift (model self) aoa * force_amplitude)
            (np.cross vhat (yhat (unit_vectors res))) in
  let F_side :=
    np.smul (C_side (model self) aoa v_norm (np.i2 ang_velocity)
             * force_amplitude)
            (yhat (unit_vectors res)) in
  let F_drag :=
    np.smul (C_drag (model self) aoa * force_amplitude) (np.neg vhat) in
  let F_grav :=
    np.smul (mass (model self) * g (environment self))
            (grav_vector (environment self)) in
  let F_total := np.add (np.add (np.add F_lift F_drag) F_grav) F_side in
  let Acc := np.divs F_total (mass (model self)) in
  {| quantities := res; F_lift := F_lift; F_side := F_side;
     F_drag := F_drag; F_grav := F_grav; F_total := F_total; Acc := Acc |}.

(** [EOM.compute_torques] *)
Definition compute_torques (self : EOM)
    (velocity ang_velocity : np.array3) (rotation : Rotation.t)
    (res : Forces) : result Torques :=
  let aoa := angle_of_attack (quantities res) in
  let torque_amplitude :=
    0.5 * air_density (environment self) * np.dot velocity velocity
    * diameter (model self) * area (model self) in
  let i_zz := I_zz (model self) in
  let torque := torque_amplitude in
  let wz := np.i2 ang_velocity in
  let v_norm := np.norm velocity in
  let roll :=
    np.smul (C_y (model self) aoa * torque)
            (xhat (unit_vectors (quantities res))) in
  let pitch_up :=
    np.smul (C_x (model self) aoa v_norm wz * torque)
            (yhat (unit_vectors (quantities res))) in
  let wobble := w (quantities res) in
  let w := np.add (np.divs (np.add roll pitch_up) (i_zz * wz)) wobble in
  let w_norm := np.norm w in
  wquat <-
    (if math.isclose 0 w_norm
     then Rotation.from_quat rejects_nan (np.mk4 0 0 0 1)
     else
       wrot <- Rotation.from_quat rejects_nan
                 (np.mk4 (np.i0 w) (np.i1 w) (np.i2 w) 0) ;;
       Rotation.mul rejects_nan wrot rotation) ;;
  T <- compute_wobble_precession self ang_velocity torque ;;
  Ok {| forces := res;
        torque_amplitude := torque_amplitude;
        T := T;
        dq := np.divs4 (np.muls4 (Rotation.as_quat wquat) w_norm) 2 |}.

(** [EOM.compute_derivatives] *)
Definition compute_derivatives (self : EOM)
    (time : float) (coordinates : list float) : result (list float) :=
  match coordinates with
  | [x; y; z; vx; vy; vz; qx; qy; qz; qw; dphi; dtheta; dgamma] =>
      let velocity := np.mk3 vx vy vz in
      rotation <- Rotation.from_quat rejects_nan (np.mk4 qx qy qz qw) ;;
      let ang_velocity := np.mk3 dphi dtheta dgamma in
      let result := compute_forces self rotation velocity ang_velocity in
      result <- compute_torques self velocity ang_velocity rotation result ;;
      Ok [ vx; vy; vz;
           np.i0 (Acc (forces result));
           np.i1 (Acc (forces result));
           np.i2 (Acc (forces result));
           np.j0 (dq result);
           np.j1 (dq result);
           np.j2 (dq result);
           np.j3 (dq result);
           np.i0 (T result);
           np.i1 (T result);
           np.i2 (T result) ]
  | _ => Raise ValueError_unpack
  end.

End Methods.

(** an inert disc: every coefficient function and both dampening factors
    zero, no gravity, parameters that doubles hold exactly *)
Definition inert_eom : EOM :=
  {| _environment :=
       {| air_density := 1.25; g := 0; grav_vector := np.mk3 0 0 (-1) |};
     _model :=
       {| mass := 0.125; area := 0.0625; diameter := 0.25;
          I_xx := 0x1p-9; I_zz := 0x1p-8;
          dampening_factor := 0; dampening_z := 0;
          C_lift := fun _ => 0;
          C_drag := fun _ => 0;
          C_side := fun _ _ _ => 0;
          C_x := fun _ _ _ => 0;
          C_y := fun _ => 0 |} |}.

Definition identity_rotation : Rotation.t := Rotation.mk (np.mk4 0 0 0 1).

(** the smallest positive double, 2^-1074 *)
Definition tiny : float := 0x1p-1074.

End binary64.

(** ** Predicates on states and collaborators *)

(** a rotation object with a finite quaternion of norm one *)
Definition unit_rotation (r : Rotation.t) : Prop :=
  exists q, Rotation.quat r = np.fin4 q /\ vec.dot4 q q = 1.


Definition not_finite3 (a : np.array3) : Prop :=
  is_finite (np.i0 a) = false /\ is_finite (np.i1 a) = false
  /\ is_finite (np.i2 a) = false.

(** the collaborators give finite numbers where the torque step needs them *)
Definition finite_moments (self : EOM) : Prop :=
  (forall a, is_finite a = true -> is_finite (C_y (model self) a) = true)
  /\ (forall a v s,
        is_finite a = true -> is_finite v = true -> is_finite s = true ->
        is_finite (C_x (model self) a v s) = true)
  /\ is_finite (air_density (environment self)) = true
  /\ is_finite (diameter (model self)) = true
  /\ is_finite (area (model self)) = true
  /\ is_finite (I_zz (model self)) = true.


(** ** The opposite quaternion

    [neg4 q] is [-q]; [negate_dq] is a derivative vector with its four
    quaternion entries negated, and [map_result] carries a function over a
    returned value and leaves an exception as it is. *)

Definition neg4 (q : np.array4) : np.array4 :=
  np.mk4 (fneg (np.j0 q)) (fneg (np.j1 q)) (fneg (np.j2 q)) (fneg (np.j3 q)).

Definition negate_dq (d : list float) : list float :=
  match d with
  | [a0; a1; a2; a3; a4; a5; a6; a7; a8; a9; a10; a11; a12] =>
      [a0; a1; a2; a3; a4; a5; fneg a6; fneg a7; fneg a8; fneg a9;
       a10; a11; a12]
  | _ => d
  end.

Definition map_result {A B : Type} (f : A -> B) (m : result A) : result B :=
  match m with
  | Ok a => Ok (f a)
  | Raise e => Raise e
  end.

(** * Properties *)

(** ** Vectors of reals *)

Lemma t3_eq (a b : vec.t3) :
  vec.i0 a = vec.i0 b -> vec.i1 a = vec.i1 b -> vec.i2 a = vec.i2 b -> a = b.
Proof. destruct a, b; simpl; intros; subst; reflexivity. Qed.

Lemma t4_eq (p q : vec.t4) :
  vec.j0 p = vec.j0 q -> vec.j1 p = vec.j1 q -> vec.j2 p = vec.j2 q ->
  vec.j3 p = vec.j3 q -> p = q.
Proof. destruct p, q; simpl; intros; subst; reflexivity. Qed.

Lemma dot_self_nonneg (a : vec.t3) : 0 <= vec.dot a a.
Proof. unfold vec.dot. nra. Qed.

Lemma dot4_self_nonneg (q : vec.t4) : 0 <= vec.dot4 q q.
Proof. unfold vec.dot4. nra. Qed.




Lemma norm_axis (a : R) : 0 <= a -> vec.norm (vec.mk3 a 0 0) = a.
Proof.
  intro H. unfold vec.norm, vec.dot; simpl.
  replace (a * a + 0 * 0 + 0 * 0) with (a * a) by ring.
  apply sqrt_square, H.
Qed.

Lemma norm4_sqr (q : vec.t4) : vec.norm4 q * vec.norm4 q = vec.dot4 q q.
Proof. apply sqrt_sqrt, dot4_self_nonneg. Qed.

Lemma norm4_eq_0 (q : vec.t4) : vec.norm4 q = 0 <-> vec.dot4 q q = 0.
Proof.
  split; intro H.
  - apply sqrt_eq_0; [apply dot4_self_nonneg | exact H].
  - unfold vec.norm4. rewrite H. apply sqrt_0.
Qed.

Lemma norm4_unit (q : vec.t4) : vec.dot4 q q = 1 -> vec.norm4 q = 1.
Proof. intro H. unfold vec.norm4. rewrite H. apply sqrt_1. Qed.









Lemma hamilton_dot4 (p q : vec.t4) :
  vec.dot4 (vec.hamilton p q) (vec.hamilton p q)
  = vec.dot4 p p * vec.dot4 q q.
Proof. unfold vec.hamilton, vec.dot4; simpl. ring. Qed.

Lemma hamilton_scale_l (s : R) (p q : vec.t4) :
  vec.hamilton (vec.scale4 s p) q = vec.scale4 s (vec.hamilton p q).
Proof. apply t4_eq; unfold vec.hamilton, vec.scale4; simpl; ring. Qed.

Lemma dot4_scale4 (s : R) (q : vec.t4) :
  vec.dot4 (vec.scale4 s q) (vec.scale4 s q) = s * s * vec.dot4 q q.
Proof. unfold vec.dot4, vec.scale4; simpl. ring. Qed.


(** ** Floats *)

Lemma fin_inj (a b : R) : fin a = fin b -> a = b.
Proof. intro H. injection H as ->. reflexivity. Qed.

Lemma fdiv_fin (a b : R) : b <> 0 -> fdiv (fin a) (fin b) = fin (a / b).
Proof.
  intro H. unfold fdiv. destruct (Req_dec_T b 0); [contradiction | reflexivity].
Qed.

Lemma fdiv_fin_0 (a : R) : fdiv (fin a) (fin 0) = inf_of_sign a.
Proof.
  unfold fdiv. destruct (Req_dec_T 0 0) as [_ | N]; [reflexivity |].
  exfalso. apply N. reflexivity.
Qed.

Lemma fsqrt_fin (a : R) : 0 <= a -> fsqrt (fin a) = fin (sqrt a).
Proof.
  intro H. unfold fsqrt. destruct (Rlt_dec a 0); [lra | reflexivity].
Qed.

Lemma inf_of_sign_0 : inf_of_sign 0 = nan.
Proof.
  unfold inf_of_sign.
  destruct (Rlt_dec 0 0); [lra |]. reflexivity.
Qed.

Lemma inf_of_sign_not_finite (r : R) : is_finite (inf_of_sign r) = false.
Proof.
  unfold inf_of_sign.
  destruct (Rlt_dec 0 r); [reflexivity |].
  destruct (Rlt_dec r 0); reflexivity.
Qed.

Lemma feqb_fin (a b : R) : feqb (fin a) (fin b) = true <-> a = b.
Proof.
  unfold feqb. destruct (Req_dec_T a b); split; congruence.
Qed.

Lemma feqb_fin_false (a b : R) : a <> b -> feqb (fin a) (fin b) = false.
Proof.
  intro H. unfold feqb. destruct (Req_dec_T a b); [contradiction | reflexivity].
Qed.

Lemma fadd_nan_r (x : float) : fadd x nan = nan.
Proof. destruct x; reflexivity. Qed.

Lemma fmul_nan_r (x : float) : fmul x nan = nan.
Proof. destruct x; reflexivity. Qed.

Lemma fdiv_nan_r (x : float) : fdiv x nan = nan.
Proof. destruct x; reflexivity. Qed.

Lemma finite_inv (x : float) : is_finite x = true -> exists r, x = fin r.
Proof. destruct x; try discriminate. intros _. eexists; reflexivity. Qed.

(** a quotient by zero is never finite *)
Lemma fdiv_0_not_finite (x : float) : is_finite (fdiv x (fin 0)) = false.
Proof.
  destruct x; simpl; try reflexivity.
  - destruct (Req_dec_T 0 0) as [_ | N];
      [apply inf_of_sign_not_finite | exfalso; apply N; reflexivity].
  - destruct (Rlt_dec 0 0); reflexivity.
  - destruct (Rlt_dec 0 0); reflexivity.
Qed.

Lemma fdiv_nan_not_finite (x : float) : is_finite (fdiv x nan) = false.
Proof. rewrite fdiv_nan_r. reflexivity. Qed.

(** what is not finite stays so under an addition *)
Lemma fadd_not_finite_l (x y : float) :
  is_finite x = false -> is_finite (fadd x y) = false.
Proof. destruct x, y; simpl; congruence. Qed.



(** ** Arrays without special values *)

Lemma array3_eq (a b : np.array3) :
  np.i0 a = np.i0 b -> np.i1 a = np.i1 b -> np.i2 a = np.i2 b -> a = b.
Proof. destruct a, b; simpl; intros; subst; reflexivity. Qed.

Lemma array4_eq (p q : np.array4) :
  np.j0 p = np.j0 q -> np.j1 p = np.j1 q -> np.j2 p = np.j2 q ->
  np.j3 p = np.j3 q -> p = q.
Proof. destruct p, q; simpl; intros; subst; reflexivity. Qed.

Lemma fin3_eq (a b : vec.t3) : a = b -> np.fin3 a = np.fin3 b.
Proof. intros ->. reflexivity. Qed.

Lemma add_fin3 (a b : vec.t3) :
  np.add (np.fin3 a) (np.fin3 b) = np.fin3 (vec.add a b).
Proof. reflexivity. Qed.

Lemma smul_fin3 (s : R) (a : vec.t3) :
  np.smul (fin s) (np.fin3 a) = np.fin3 (vec.scale s a).
Proof. reflexivity. Qed.

Lemma muls_fin3 (s : R) (a : vec.t3) :
  np.muls (np.fin3 a) (fin s) = np.fin3 (vec.scale s a).
Proof.
  apply array3_eq; unfold np.muls, np.fin3, vec.scale; simpl; f_equal; ring.
Qed.

Lemma neg_fin3 (a : vec.t3) :
  np.neg (np.fin3 a) = np.fin3 (vec.scale (-1) a).
Proof.
  apply array3_eq; unfold np.neg, np.fin3, vec.scale; simpl; f_equal; ring.
Qed.

Lemma divs_fin3 (s : R) (a : vec.t3) :
  s <> 0 -> np.divs (np.fin3 a) (fin s) = np.fin3 (vec.scale (/ s) a).
Proof.
  intro H.
  apply array3_eq; unfold np.divs, np.fin3, vec.scale;
    cbn [np.i0 np.i1 np.i2 vec.i0 vec.i1 vec.i2];
    rewrite fdiv_fin by exact H; f_equal; unfold Rdiv; ring.
Qed.

Lemma dot_fin3 (a b : vec.t3) :
  np.dot (np.fin3 a) (np.fin3 b) = fin (vec.dot a b).
Proof. reflexivity. Qed.

Lemma cross_fin3 (a b : vec.t3) :
  np.cross (np.fin3 a) (np.fin3 b) = np.fin3 (vec.cross a b).
Proof. reflexivity. Qed.

Lemma norm_fin3 (a : vec.t3) : np.norm (np.fin3 a) = fin (vec.norm a).
Proof.
  unfold np.norm. rewrite dot_fin3. apply fsqrt_fin, dot_self_nonneg.
Qed.

Lemma dot4_fin4 (p q : vec.t4) :
  np.dot4 (np.fin4 p) (np.fin4 q) = fin (vec.dot4 p q).
Proof. reflexivity. Qed.

Lemma norm4_fin4 (q : vec.t4) : np.norm4 (np.fin4 q) = fin (vec.norm4 q).
Proof.
  unfold np.norm4. rewrite dot4_fin4. apply fsqrt_fin, dot4_self_nonneg.
Qed.

Lemma divs4_fin4 (s : R) (q : vec.t4) :
  s <> 0 -> np.divs4 (np.fin4 q) (fin s) = np.fin4 (vec.scale4 (/ s) q).
Proof.
  intro H.
  apply array4_eq; unfold np.divs4, np.fin4, vec.scale4;
    cbn [np.j0 np.j1 np.j2 np.j3 vec.j0 vec.j1 vec.j2 vec.j3];
    rewrite fdiv_fin by exact H; f_equal; unfold Rdiv; ring.
Qed.

Lemma muls4_fin4 (s : R) (q : vec.t4) :
  np.muls4 (np.fin4 q) (fin s) = np.fin4 (vec.scale4 s q).
Proof.
  apply array4_eq; unfold np.muls4, np.fin4, vec.scale4; simpl; f_equal; ring.
Qed.

Lemma compose_quat_fin4 (p q : vec.t4) :
  Rotation.compose_quat (np.fin4 p) (np.fin4 q) = np.fin4 (vec.hamilton p q).
Proof. reflexivity. Qed.

(** ** The locals of the resolver on a finite state *)

Lemma disc_normal_fin (q : vec.t4) :
  disc_normal (Rotation.mk (np.fin4 q)) = np.fin3 (vec.normal q).
Proof.
  apply array3_eq;
    unfold disc_normal, Rotation.as_matrix, np.matvec, np.dot, np.fin3,
      np.fin4, vec.normal; simpl; f_equal; ring.
Qed.

Lemma normal_velocity_fin (q : vec.t4) (v : vec.t3) :
  normal_velocity (Rotation.mk (np.fin4 q)) (np.fin3 v)
  = fin (vec.dot v (vec.normal q)).
Proof. unfold normal_velocity. rewrite disc_normal_fin. reflexivity. Qed.

Lemma in_plane_velocity_fin (q : vec.t4) (v : vec.t3) :
  in_plane_velocity (Rotation.mk (np.fin4 q)) (np.fin3 v)
  = np.fin3 (vec.in_plane q v).
Proof.
  unfold in_plane_velocity.
  rewrite normal_velocity_fin, disc_normal_fin, muls_fin3. reflexivity.
Qed.

Lemma wobble_fin (q : vec.t4) (a b : R) :
  exists wobble,
    np.matvec (Rotation.as_matrix (Rotation.mk (np.fin4 q)))
              (np.mk3 (fin a) (fin b) (fin 0))
    = np.fin3 wobble.
Proof.
  eexists (vec.mk3 _ _ _).
  unfold Rotation.as_matrix, np.matvec, np.dot, np.fin3, np.fin4; simpl.
  reflexivity.
Qed.

(** ** math.isclose against zero *)

Lemma isclose_0_fin (x : R) : math.isclose (fin 0) (fin x) = true <-> x = 0.
Proof.
  unfold math.isclose, math.rel_tol, math.abs_tol, feqb.
  destruct (Req_dec_T 0 x) as [E | N].
  - split; [intros _; symmetry; exact E | reflexivity].
  - cbn [isinf orb fsub fneg fadd fmul fabs fleb].
    assert (Hx : 0 < Rabs x) by (apply Rabs_pos_lt; intro; apply N; lra).
    replace (x + - 0) with x by ring.
    replace (1e-9 * 0) with 0 by ring.
    rewrite Rabs_R0, Rabs_mult.
    assert (Ht : Rabs 1e-9 = 1e-9) by (apply Rabs_pos_eq; lra).
    rewrite Ht.
    destruct (Rle_dec (Rabs x) (1e-9 * Rabs x)) as [H1 | H1]; [lra |].
    destruct (Rle_dec (Rabs x) 0) as [H2 | H2]; [lra |].
    simpl. split; [discriminate | intro; exfalso; apply N; lra].
Qed.

Lemma isclose_0_fin_false (x : R) : x <> 0 -> math.isclose (fin 0) (fin x) = false.
Proof.
  intro N. destruct (math.isclose (fin 0) (fin x)) eqn:E; [| reflexivity].
  apply isclose_0_fin in E. contradiction.
Qed.

(** [math.isclose(0, x)] holds for [x = 0] and for nothing else *)
Lemma isclose_0_iff (x : float) : math.isclose (fin 0) x = true <-> x = fin 0.
Proof.
  destruct x as [r | | |].
  - rewrite isclose_0_fin. split; [intros -> | intro H; injection H]; auto.
  - split; discriminate.
  - split; discriminate.
  - split; discriminate.
Qed.

(** ** Rotation objects *)

Section Rotations.

Variable rejects_nan : bool.

Lemma from_quat_fin (q : vec.t4) :
  vec.norm4 q <> 0 ->
  Rotation.from_quat rejects_nan (np.fin4 q)
  = Ok (Rotation.mk (np.fin4 (vec.scale4 (/ vec.norm4 q) q))).
Proof.
  intro H. unfold Rotation.from_quat. cbv zeta.
  rewrite norm4_fin4, feqb_fin_false by exact H.
  cbn [isnan andb]. rewrite divs4_fin4 by exact H. reflexivity.
Qed.

Lemma from_quat_zero (q : vec.t4) :
  vec.norm4 q = 0 ->
  Rotation.from_quat rejects_nan (np.fin4 q) = Raise ValueError_zero_norm.
Proof.
  intro H. unfold Rotation.from_quat. cbv zeta.
  rewrite norm4_fin4, H.
  rewrite (proj2 (feqb_fin 0 0) eq_refl). reflexivity.
Qed.

Lemma from_quat_unit (q : vec.t4) :
  vec.dot4 q q = 1 ->
  Rotation.from_quat rejects_nan (np.fin4 q) = Ok (Rotation.mk (np.fin4 q)).
Proof.
  intro H. pose proof (norm4_unit q H) as N.
  rewrite from_quat_fin by lra. rewrite N.
  do 3 f_equal. apply t4_eq; unfold vec.scale4; simpl; field.
Qed.

(** a quaternion whose norm is nan: rejected or let through with its
    entries divided by nan *)
Lemma from_quat_nan (q : np.array4) :
  np.norm4 q = nan ->
  Rotation.from_quat rejects_nan q
  = if rejects_nan then Raise ValueError_zero_norm
    else Ok (Rotation.mk np.nan4).
Proof.
  intro H. unfold Rotation.from_quat. cbv zeta. rewrite H.
  cbn [feqb isnan andb].
  destruct rejects_nan; [reflexivity |].
  unfold np.divs4. rewrite !fdiv_nan_r. reflexivity.
Qed.

Lemma from_quat_fin_unit (q : vec.t4) (r : Rotation.t) :
  Rotation.from_quat rejects_nan (np.fin4 q) = Ok r -> unit_rotation r.
Proof.
  destruct (Req_dec_T (vec.norm4 q) 0) as [E | N].
  - rewrite from_quat_zero by exact E. discriminate.
  - rewrite from_quat_fin by exact N. intro H. injection H as <-.
    eexists. split; [reflexivity |].
    rewrite dot4_scale4, <- norm4_sqr. field. exact N.
Qed.

Lemma mul_of_units (p q : vec.t4) :
  vec.dot4 p p = 1 -> vec.dot4 q q = 1 ->
  Rotation.mul rejects_nan (Rotation.mk (np.fin4 p)) (Rotation.mk (np.fin4 q))
  = Ok (Rotation.mk (np.fin4 (vec.hamilton p q))).
Proof.
  intros Hp Hq. unfold Rotation.mul. cbn [Rotation.quat].
  rewrite compose_quat_fin4. apply from_quat_unit.
  rewrite hamilton_dot4, Hp, Hq. ring.
Qed.

End Rotations.


Lemma from_quat_identity (rejects_nan : bool) :
  Rotation.from_quat rejects_nan (np.mk4 (fin 0) (fin 0) (fin 0) (fin 1))
  = Ok identity_rotation.
Proof.
  apply (from_quat_unit rejects_nan (vec.mk4 0 0 0 1)).
  unfold vec.dot4; simpl. ring.
Qed.

(** ** The resolver *)

(** the resolver, with its locals named *)
Lemma calculate_intermediate_quantities_eq
    (rotation : Rotation.t) (velocity ang_velocity : np.array3) :
  calculate_intermediate_quantities rotation velocity ang_velocity
  = let v_in_plane := in_plane_velocity rotation velocity in
    let xhat := np.divs v_in_plane (np.norm v_in_plane) in
    {| unit_vectors :=
         {| xhat := xhat;
            yhat := np.cross (disc_normal rotation) xhat;
            zhat := disc_normal rotation |};
       angle_of_attack :=
         fneg (arctan (fdiv (normal_velocity rotation velocity)
                            (np.norm v_in_plane)));
       w := np.matvec (Rotation.as_matrix rotation)
                      (np.mk3 (np.i0 ang_velocity) (np.i1 ang_velocity)
                              (fin 0)) |}.
Proof. reflexivity. Qed.

(** the basis and the angle of attack of a finite state with an in-plane
    velocity that is not zero *)
Lemma quantities_fin (q : vec.t4) (v : vec.t3) (ang_velocity : np.array3) :
  vec.norm (vec.in_plane q v) <> 0 ->
  let res :=
    calculate_intermediate_quantities (Rotation.mk (np.fin4 q)) (np.fin3 v)
      ang_velocity in
  let x := vec.scale (/ vec.norm (vec.in_plane q v)) (vec.in_plane q v) in
  unit_vectors res
  = {| xhat := np.fin3 x;
       yhat := np.fin3 (vec.cross (vec.normal q) x);
       zhat := np.fin3 (vec.normal q) |}
  /\ angle_of_attack res
     = fin (- atan (vec.dot v (vec.normal q) / vec.norm (vec.in_plane q v))).
Proof.
  intro H. cbv zeta.
  rewrite calculate_intermediate_quantities_eq. cbv zeta.
  cbn [unit_vectors angle_of_attack].
  rewrite in_plane_velocity_fin, disc_normal_fin, normal_velocity_fin,
    norm_fin3.
  rewrite divs_fin3 by exact H. rewrite cross_fin3.
  rewrite fdiv_fin by exact H.
  split; reflexivity.
Qed.

(** ** The torque and spin step *)

(** a product whose left factor has nan for its vector part *)
Lemma compose_quat_nan (p3 : float) (q : np.array4) :
  Rotation.compose_quat (np.mk4 nan nan nan p3) q = np.nan4.
Proof.
  destruct q as [q0 q1 q2 q3].
  unfold Rotation.compose_quat, np.cross, np.dot, np.nan4, fsub;
    cbn [np.i0 np.i1 np.i2 np.j0 np.j1 np.j2 np.j3 fmul fneg fadd].
  rewrite ?fmul_nan_r, ?fadd_nan_r. cbn [fadd fneg].
  rewrite ?fadd_nan_r. reflexivity.
Qed.

Lemma mul_nan (rejects_nan : bool) (p3 : float) (r : Rotation.t) :
  Rotation.mul rejects_nan (Rotation.mk (np.mk4 nan nan nan p3)) r
  = if rejects_nan then Raise ValueError_zero_norm
    else Ok (Rotation.mk np.nan4).
Proof.
  unfold Rotation.mul. cbn [Rotation.quat]. rewrite compose_quat_nan.
  apply from_quat_nan. reflexivity.
Qed.

(** the pure quaternion of a rate whose entries are all infinite or nan *)
Lemma pure_quat_not_finite (rejects_nan : bool) (a : np.array3) :
  not_finite3 a ->
  math.isclose (fin 0) (np.norm a) = false
  /\ (Rotation.from_quat rejects_nan
        (np.mk4 (np.i0 a) (np.i1 a) (np.i2 a) (fin 0))
      = (if rejects_nan then Raise ValueError_zero_norm
         else Ok (Rotation.mk np.nan4))
      \/ Rotation.from_quat rejects_nan
           (np.mk4 (np.i0 a) (np.i1 a) (np.i2 a) (fin 0))
         = Ok (Rotation.mk (np.mk4 nan nan nan (fin 0)))).
Proof.
  destruct a as [a0 a1 a2]. unfold not_finite3. cbn [np.i0 np.i1 np.i2].
  intros (H0 & H1 & H2).
  destruct a0; try discriminate H0; destruct a1; try discriminate H1;
    destruct a2; try discriminate H2;
    (split; [reflexivity |]);
    unfold Rotation.from_quat, np.norm4, np.dot4, np.divs4;
    cbn [np.j0 np.j1 np.j2 np.j3 fmul fadd fsqrt feqb isnan andb fdiv];
    auto.
Qed.

(** Python's division of two floats raises on a zero divisor only *)
Lemma pydiv_ok (x y : float) : y <> fin 0 -> pydiv x y = Ok (fdiv x y).
Proof.
  intro H. destruct y as [b | | |]; try reflexivity.
  unfold pydiv. destruct (Req_dec_T b 0) as [-> | N]; [| reflexivity].
  exfalso. apply H. reflexivity.
Qed.

Lemma pydiv_zero (x : float) : pydiv x (fin 0) = Raise ZeroDivisionError.
Proof.
  unfold pydiv. destruct (Req_dec_T 0 0) as [_ | N]; [reflexivity |].
  exfalso. apply N. reflexivity.
Qed.

(** the angular acceleration step raises on [I_xx = 0] and on nothing
    else *)
Lemma compute_wobble_precession_raises (self : EOM)
    (ang_velocity : np.array3) (torque : float) :
  I_xx (model self) = fin 0 ->
  compute_wobble_precession self ang_velocity torque
  = Raise ZeroDivisionError.
Proof.
  intro H. unfold compute_wobble_precession. cbv zeta.
  rewrite H, pydiv_zero. reflexivity.
Qed.

Lemma compute_wobble_precession_returns (self : EOM)
    (ang_velocity : np.array3) (torque : float) :
  I_xx (model self) <> fin 0 ->
  returns (compute_wobble_precession self ang_velocity torque).
Proof.
  intro H. unfold compute_wobble_precession. cbv zeta.
  rewrite pydiv_ok by exact H. cbn [bind]. eexists. reflexivity.
Qed.

Lemma compute_wobble_precession_error (self : EOM)
    (ang_velocity : np.array3) (torque : float) (e : exception) :
  compute_wobble_precession self ang_velocity torque = Raise e ->
  e = ZeroDivisionError /\ I_xx (model self) = fin 0.
Proof.
  unfold compute_wobble_precession. cbv zeta.
  unfold pydiv. destruct (I_xx (model self)) as [b | | |];
    cbn [bind]; try discriminate.
  destruct (Req_dec_T b 0) as [-> | N]; cbn [bind]; [| discriminate].
  intro H. injection H as <-. split; reflexivity.
Qed.

Section Torques.

Variable rejects_nan : bool.
Variable self : EOM.
Variables velocity ang_velocity : np.array3.
Variable rotation : Rotation.t.
Variable res : Forces.

(** whatever [wquat] is, the keys other than ["dq"] are fixed *)
Lemma compute_torques_inv (t : Torques) :
  compute_torques rejects_nan self velocity ang_velocity rotation res = Ok t ->
  forces t = res /\ torque_amplitude t = torque_scale self velocity /\
  compute_wobble_precession self ang_velocity (torque_scale self velocity)
  = Ok (T t).
Proof.
  unfold compute_torques.
  match goal with |- bind ?m _ = _ -> _ => destruct m as [wquat | e] end;
    cbn [bind]; [| discriminate].
  destruct (compute_wobble_precession _ _ _) as [T0 | e]; cbn [bind];
    [| discriminate].
  intro H. injection H as <-. repeat split.
Qed.

(** the branch taken when [math.isclose(0, w_norm)] holds *)
Lemma compute_torques_zero_rate :
  np.norm (angular_rate self velocity ang_velocity res) = fin 0 ->
  compute_torques rejects_nan self velocity ang_velocity rotation res
  = torques_with self velocity ang_velocity res (np.fin4 (vec.mk4 0 0 0 0)).
Proof.
  intro H. unfold compute_torques, torques_with. cbv zeta. rewrite H.
  rewrite (proj2 (isclose_0_iff _) eq_refl).
  rewrite from_quat_identity. cbn [bind].
  replace (np.divs4 (np.muls4 (Rotation.as_quat identity_rotation) (fin 0))
             (fin 2)) with (np.fin4 (vec.mk4 0 0 0 0)); [reflexivity |].
  apply array4_eq; unfold Rotation.as_quat, identity_rotation;
    cbn [Rotation.quat np.muls4 np.divs4 np.fin4 np.j0 np.j1 np.j2 np.j3
         vec.j0 vec.j1 vec.j2 vec.j3 fmul];
    (rewrite fdiv_fin by lra); f_equal; field.
Qed.

(** the other branch, on a finite rate and a unit quaternion *)
Lemma compute_torques_general (w_ : vec.t3) (q : vec.t4) :
  angular_rate self velocity ang_velocity res = np.fin3 w_ ->
  vec.norm w_ <> 0 ->
  Rotation.quat rotation = np.fin4 q ->
  vec.dot4 q q = 1 ->
  compute_torques rejects_nan self velocity ang_velocity rotation res
  = torques_with self velocity ang_velocity res (np.fin4
              (vec.scale4 (/ 2)
                 (vec.hamilton
                    (vec.mk4 (vec.i0 w_) (vec.i1 w_) (vec.i2 w_) 0) q))).
Proof.
  intros Hw Hn Hq Hu. unfold compute_torques, torques_with. cbv zeta.
  rewrite Hw, norm_fin3, isclose_0_fin_false by exact Hn.
  set (omega := vec.mk4 (vec.i0 w_) (vec.i1 w_) (vec.i2 w_) 0).
  change (np.mk4 (np.i0 (np.fin3 w_)) (np.i1 (np.fin3 w_))
                 (np.i2 (np.fin3 w_)) (fin 0))
    with (np.fin4 omega).
  assert (Ho : vec.norm4 omega = vec.norm w_).
  { unfold vec.norm4, vec.norm, vec.dot4, vec.dot, omega; simpl.
    f_equal. ring. }
  rewrite from_quat_fin by (rewrite Ho; exact Hn).
  cbn [bind]. destruct rotation as [rq]. cbn [Rotation.quat] in Hq. subst rq.
  rewrite mul_of_units;
    [| rewrite dot4_scale4, <- norm4_sqr; field; rewrite Ho; exact Hn
     | exact Hu].
  cbn [bind Rotation.as_quat Rotation.quat].
  rewrite muls4_fin4, divs4_fin4 by lra.
  replace (vec.scale4 (/ 2)
             (vec.scale4 (vec.norm w_)
                (vec.hamilton (vec.scale4 (/ vec.norm4 omega) omega) q)))
    with (vec.scale4 (/ 2) (vec.hamilton omega q)); [reflexivity |].
  rewrite hamilton_scale_l, Ho.
  apply t4_eq; unfold vec.scale4;
    cbn [vec.j0 vec.j1 vec.j2 vec.j3]; field; exact Hn.
Qed.

(** on a finite rate, a unit quaternion and a moment [I_xx] that is not
    zero the step raises nothing *)
Lemma compute_torques_returns (w_ : vec.t3) :
  angular_rate self velocity ang_velocity res = np.fin3 w_ ->
  unit_rotation rotation ->
  I_xx (model self) <> fin 0 ->
  returns (compute_torques rejects_nan self velocity ang_velocity rotation res).
Proof.
  intros Hw (q & Hq & Hu) Hx.
  destruct (compute_wobble_precession_returns self ang_velocity
              (torque_scale self velocity) Hx) as [T0 HT].
  destruct (Req_dec_T (vec.norm w_) 0) as [E | N].
  - eexists. rewrite compute_torques_zero_rate
      by (rewrite Hw, norm_fin3, E; reflexivity).
    unfold torques_with. rewrite HT. reflexivity.
  - eexists. rewrite (compute_torques_general w_ q) by assumption.
    unfold torques_with. rewrite HT. reflexivity.
Qed.

(** a rate whose entries are all infinite or nan: the quaternion made of it
    has no norm, and the product with the orientation has nan entries
    throughout *)
Lemma compute_torques_not_finite :
  not_finite3 (angular_rate self velocity ang_velocity res) ->
  compute_torques rejects_nan self velocity ang_velocity rotation res
  = if rejects_nan then Raise ValueError_zero_norm
    else torques_with self velocity ang_velocity res np.nan4.
Proof.
  intro H. unfold compute_torques, torques_with. cbv zeta.
  destruct (pure_quat_not_finite rejects_nan _ H) as (Hc & [Hq | Hq]);
    rewrite Hc, Hq.
  - destruct rejects_nan; [reflexivity |].
    cbn [bind]. unfold np.nan4. rewrite mul_nan. reflexivity.
  - cbn [bind]. rewrite mul_nan.
    destruct rejects_nan; reflexivity.
Qed.

End Torques.

(** ** The combined angular rate *)

Lemma fmul_0_r (x : float) : fmul x (fin 0) = fin 0 \/ fmul x (fin 0) = nan.
Proof.
  destruct x; cbn [fmul].
  - left. f_equal. ring.
  - right. apply inf_of_sign_0.
  - right. replace (- 0) with 0 by ring. apply inf_of_sign_0.
  - right. reflexivity.
Qed.

(** with a spin rate of zero every entry of the rate is a quotient by zero
    (or by nan), which no addition makes finite again *)
Lemma angular_rate_zero_spin (self : EOM)
    (velocity ang_velocity : np.array3) (res : Forces) :
  np.i2 ang_velocity = fin 0 ->
  not_finite3 (angular_rate self velocity ang_velocity res).
Proof.
  intro H. unfold angular_rate, not_finite3. cbv zeta. rewrite H.
  unfold np.add at 1. unfold np.divs. cbn [np.i0 np.i1 np.i2].
  destruct (fmul_0_r (I_zz (model self))) as [-> | ->];
    repeat split; apply fadd_not_finite_l;
    first [apply fdiv_0_not_finite | apply fdiv_nan_not_finite].
Qed.

(** on a finite state with no zero divisor the rate is finite *)
Lemma angular_rate_fin (self : EOM) (q : vec.t4) (v : vec.t3)
    (dphi dtheta dgamma : R) :
  finite_moments self ->
  vec.norm (vec.in_plane q v) <> 0 ->
  fmul (I_zz (model self)) (fin dgamma) <> fin 0 ->
  exists w_,
    angular_rate self (np.fin3 v) (np.mk3 (fin dphi) (fin dtheta) (fin dgamma))
      (compute_forces self (Rotation.mk (np.fin4 q)) (np.fin3 v)
         (np.mk3 (fin dphi) (fin dtheta) (fin dgamma)))
    = np.fin3 w_.
Proof.
  intros (Hy & Hx & Hr & Hd & Ha & Hz) Hp Hs.
  unfold angular_rate. cbv zeta.
  change (quantities (compute_forces ?s ?r ?vv ?av))
    with (calculate_intermediate_quantities r vv av).
  destruct (quantities_fin q v (np.mk3 (fin dphi) (fin dtheta) (fin dgamma)) Hp)
    as (Huv & Haoa).
  cbv zeta in Huv, Haoa. rewrite Huv, Haoa. cbn [xhat yhat].
  change (w (calculate_intermediate_quantities ?r ?vv ?av))
    with (np.matvec (Rotation.as_matrix r)
            (np.mk3 (np.i0 av) (np.i1 av) (fin 0))).
  cbn [np.i0 np.i1 np.i2].
  destruct (wobble_fin q dphi dtheta) as [wobble ->].
  rewrite norm_fin3.
  unfold torque_scale. rewrite dot_fin3.
  match goal with
  | |- context [C_y (model self) (fin ?a)] =>
      destruct (finite_inv _ (Hy (fin a) eq_refl)) as [cy ->]
  end.
  match goal with
  | |- context [C_x (model self) (fin ?a) (fin ?b) (fin ?c)] =>
      destruct (finite_inv _ (Hx (fin a) (fin b) (fin c)
                                eq_refl eq_refl eq_refl)) as [cx ->]
  end.
  destruct (finite_inv _ Hr) as [rho ->].
  destruct (finite_inv _ Hd) as [d ->].
  destruct (finite_inv _ Ha) as [a ->].
  destruct (finite_inv _ Hz) as [izz Ez].
  rewrite Ez in Hs |- *. cbn [fmul] in Hs |- *.
  rewrite !smul_fin3, add_fin3.
  rewrite divs_fin3 by (intro E; apply Hs; rewrite E; reflexivity).
  rewrite add_fin3. eexists. reflexivity.
Qed.

(** ** The derivative entry point *)

Section Derivatives.

Variable rejects_nan : bool.
Variable self : EOM.
Variable time : float.

Lemma compute_derivatives_eq
    (x y z vx vy vz qx qy qz qw dphi dtheta dgamma : float)
    (rotation : Rotation.t) (t : Torques) :
  Rotation.from_quat rejects_nan (np.mk4 qx qy qz qw) = Ok rotation ->
  compute_torques rejects_nan self (np.mk3 vx vy vz)
    (np.mk3 dphi dtheta dgamma) rotation
    (compute_forces self rotation (np.mk3 vx vy vz) (np.mk3 dphi dtheta dgamma))
  = Ok t ->
  compute_derivatives rejects_nan self time
    [x; y; z; vx; vy; vz; qx; qy; qz; qw; dphi; dtheta; dgamma]
  = Ok [ vx; vy; vz;
         np.i0 (Acc (forces t)); np.i1 (Acc (forces t)); np.i2 (Acc (forces t));
         np.j0 (dq t); np.j1 (dq t); np.j2 (dq t); np.j3 (dq t);
         np.i0 (T t); np.i1 (T t); np.i2 (T t) ].
Proof.
  intros Hq Ht. unfold compute_derivatives.
  rewrite Hq. cbn [bind]. rewrite Ht. reflexivity.
Qed.

Lemma compute_derivatives_raise
    (x y z vx vy vz qx qy qz qw dphi dtheta dgamma : float)
    (rotation : Rotation.t) (e : exception) :
  Rotation.from_quat rejects_nan (np.mk4 qx qy qz qw) = Ok rotation ->
  compute_torques rejects_nan self (np.mk3 vx vy vz)
    (np.mk3 dphi dtheta dgamma) rotation
    (compute_forces self rotation (np.mk3 vx vy vz) (np.mk3 dphi dtheta dgamma))
  = Raise e ->
  compute_derivatives rejects_nan self time
    [x; y; z; vx; vy; vz; qx; qy; qz; qw; dphi; dtheta; dgamma]
  = Raise e.
Proof.
  intros Hq Ht. unfold compute_derivatives.
  rewrite Hq. cbn [bind]. rewrite Ht. reflexivity.
Qed.

Lemma compute_derivatives_inv (coordinates d : list float) :
  compute_derivatives rejects_nan self time coordinates = Ok d ->
  exists x y z vx vy vz qx qy qz qw dphi dtheta dgamma rotation t,
    coordinates = [x; y; z; vx; vy; vz; qx; qy; qz; qw; dphi; dtheta; dgamma]
    /\ Rotation.from_quat rejects_nan (np.mk4 qx qy qz qw) = Ok rotation
    /\ compute_torques rejects_nan self (np.mk3 vx vy vz)
         (np.mk3 dphi dtheta dgamma) rotation
         (compute_forces self rotation (np.mk3 vx vy vz)
            (np.mk3 dphi dtheta dgamma)) = Ok t
    /\ d = [ vx; vy; vz;
             np.i0 (Acc (forces t)); np.i1 (Acc (forces t));
             np.i2 (Acc (forces t));
             np.j0 (dq t); np.j1 (dq t); np.j2 (dq t); np.j3 (dq t);
             np.i0 (T t); np.i1 (T t); np.i2 (T t) ].
Proof.
  unfold compute_derivatives.
  do 13 (destruct coordinates as [| ? coordinates]; [discriminate |]).
  destruct coordinates; [| discriminate].
  destruct (Rotation.from_quat _ _) as [rotation | e] eqn:Hq;
    cbn [bind]; [| discriminate].
  destruct (compute_torques _ _ _ _ _ _) as [t | e] eqn:Ht;
    cbn [bind]; [| discriminate].
  intro H. injection H as <-.
  do 15 eexists. repeat split; eassumption.
Qed.

(** a finite state with no zero divisor is accepted *)
Lemma compute_derivatives_returns (x y z : float) (q : vec.t4) (v : vec.t3)
    (dphi dtheta dgamma : R) (rotation : Rotation.t) :
  finite_moments self ->
  Rotation.from_quat rejects_nan (np.fin4 q) = Ok rotation ->
  np.norm (in_plane_velocity rotation (np.fin3 v)) <> fin 0 ->
  fmul (I_zz (model self)) (fin dgamma) <> fin 0 ->
  I_xx (model self) <> fin 0 ->
  returns
    (compute_derivatives rejects_nan self time
       [x; y; z; fin (vec.i0 v); fin (vec.i1 v); fin (vec.i2 v);
        fin (vec.j0 q); fin (vec.j1 q); fin (vec.j2 q); fin (vec.j3 q);
        fin dphi; fin dtheta; fin dgamma]).
Proof.
  intros Hm Hq Hp Hs Hx.
  pose proof (from_quat_fin_unit _ _ _ Hq) as Hu.
  destruct Hu as (qn & Eq & Hu).
  destruct rotation as [rq]. cbn [Rotation.quat] in Eq. subst rq.
  rewrite in_plane_velocity_fin, norm_fin3 in Hp.
  assert (Hp' : vec.norm (vec.in_plane qn v) <> 0)
    by (intro E; apply Hp; rewrite E; reflexivity).
  destruct (angular_rate_fin self qn v dphi dtheta dgamma Hm Hp' Hs)
    as [w_ Hw].
  destruct (compute_torques_returns rejects_nan self _ _
              (Rotation.mk (np.fin4 qn)) _ w_ Hw) as [t Ht];
    [exists qn; split; [reflexivity | exact Hu] | exact Hx |].
  eexists. eapply compute_derivatives_eq; [exact Hq | exact Ht].
Qed.

End Derivatives.

(** ** The scenario, evaluated *)

Lemma identity_normal : vec.normal (vec.mk4 0 0 0 1) = vec.mk3 0 0 1.
Proof. apply t3_eq; unfold vec.normal; simpl; ring. Qed.

Lemma identity_in_plane (v : vec.t3) :
  vec.in_plane (vec.mk4 0 0 0 1) v = vec.mk3 (vec.i0 v) (vec.i1 v) 0.
Proof.
  unfold vec.in_plane. rewrite identity_normal.
  apply t3_eq; unfold vec.sub, vec.scale, vec.dot; simpl; ring.
Qed.

Lemma identity_wobble (dphi dtheta : R) :
  np.matvec (Rotation.as_matrix identity_rotation)
            (np.mk3 (fin dphi) (fin dtheta) (fin 0))
  = np.fin3 (vec.mk3 dphi dtheta 0).
Proof.
  apply array3_eq;
    unfold identity_rotation, Rotation.as_matrix, np.matvec, np.dot, np.fin3;
    simpl; f_equal; ring.
Qed.

(** the resolver on a velocity (a, 0, c) with [a > 0], identity orientation *)
Lemma identity_quantities (a c dphi dtheta dgamma : R) :
  0 < a ->
  calculate_intermediate_quantities identity_rotation
    (np.fin3 (vec.mk3 a 0 c)) (np.mk3 (fin dphi) (fin dtheta) (fin dgamma))
  = {| unit_vectors :=
         {| xhat := np.fin3 (vec.mk3 1 0 0);
            yhat := np.fin3 (vec.mk3 0 1 0);
            zhat := np.fin3 (vec.mk3 0 0 1) |};
       angle_of_attack := fin (- atan (c / a));
       w := np.fin3 (vec.mk3 dphi dtheta 0) |}.
Proof.
  intro Ha.
  assert (Hn : vec.norm (vec.in_plane (vec.mk4 0 0 0 1) (vec.mk3 a 0 c)) = a).
  { rewrite identity_in_plane. simpl. apply norm_axis. lra. }
  destruct (quantities_fin (vec.mk4 0 0 0 1) (vec.mk3 a 0 c)
              (np.mk3 (fin dphi) (fin dtheta) (fin dgamma)))
    as (Huv & Haoa).
  { rewrite Hn. lra. }
  cbv zeta in Huv, Haoa.
  change (Rotation.mk (np.fin4 (vec.mk4 0 0 0 1))) with identity_rotation
    in Huv, Haoa.
  rewrite Hn, identity_in_plane, identity_normal in Huv.
  rewrite Hn, identity_normal in Haoa.
  set (res := calculate_intermediate_quantities _ _ _) in *.
  assert (Hw : w res = np.fin3 (vec.mk3 dphi dtheta 0)).
  { unfold res. apply identity_wobble. }
  destruct res as [uv aoa w_]. cbn [unit_vectors angle_of_attack w] in *.
  subst uv aoa w_. f_equal.
  - f_equal; apply fin3_eq, t3_eq;
      unfold vec.cross, vec.scale; simpl; field; lra.
  - f_equal. f_equal. f_equal. unfold vec.dot; simpl. field. lra.
Qed.

Lemma scenario_finite_moments : finite_moments scenario_eom.
Proof. repeat split. Qed.


Lemma scenario_forces (dphi dtheta dgamma : R) :
  compute_forces scenario_eom identity_rotation (np.fin3 (vec.mk3 10 0 0))
    (np.mk3 (fin dphi) (fin dtheta) (fin dgamma))
  = {| quantities :=
         {| unit_vectors :=
              {| xhat := np.fin3 (vec.mk3 1 0 0);
                 yhat := np.fin3 (vec.mk3 0 1 0);
                 zhat := np.fin3 (vec.mk3 0 0 1) |};
            angle_of_attack := fin 0;
            w := np.fin3 (vec.mk3 dphi dtheta 0) |};
       F_lift := np.fin3 (vec.mk3 0 0 1.06575);
       F_side := np.fin3 (vec.mk3 0 0 0);
       F_drag := np.fin3 (vec.mk3 (-0.35525) 0 0);
       F_grav := np.fin3 (vec.mk3 0 0 (-1.71675));
       F_total := np.fin3 (vec.mk3 (-0.35525) 0 (-0.651));
       Acc := np.fin3 (vec.mk3 (-2.03) 0 (-3.72)) |}.
Proof.
  unfold compute_forces. rewrite identity_quantities by lra.
  replace (- atan (0 / 10)) with 0
    by (replace (0 / 10) with 0 by field; rewrite atan_0; ring).
  cbv zeta. rewrite norm_fin3, norm_axis by lra.
  rewrite divs_fin3 by lra.
  cbn [unit_vectors yhat angle_of_attack scenario_eom environment model
       _environment _model scenario_environment scenario_model
       air_density area mass g grav_vector C_lift C_drag C_side].
  rewrite dot_fin3, neg_fin3, cross_fin3. cbn [fmul].
  change (np.mk3 (fin 0) (fin 0) (fin (-1)))
    with (np.fin3 (vec.mk3 0 0 (-1))).
  rewrite !smul_fin3, !add_fin3, divs_fin3 by lra.
  f_equal; apply fin3_eq, t3_eq;
    unfold vec.add, vec.scale, vec.cross, vec.dot; simpl; lra.
Qed.

Lemma scenario_angular_rate (dphi dtheta : R) :
  angular_rate scenario_eom (np.fin3 (vec.mk3 10 0 0))
    (np.mk3 (fin dphi) (fin dtheta) (fin 50))
    (compute_forces scenario_eom identity_rotation (np.fin3 (vec.mk3 10 0 0))
       (np.mk3 (fin dphi) (fin dtheta) (fin 50)))
  = np.fin3 (vec.mk3 dphi dtheta 0).
Proof.
  rewrite scenario_forces. unfold angular_rate, torque_scale. cbv zeta.
  cbn [quantities unit_vectors xhat yhat w angle_of_attack scenario_eom
       environment model _environment _model scenario_environment
       scenario_model air_density area diameter I_zz C_x C_y np.i2].
  rewrite dot_fin3. cbn [fmul].
  rewrite !smul_fin3, add_fin3, divs_fin3 by lra. rewrite add_fin3.
  apply fin3_eq, t3_eq; unfold vec.add, vec.scale; simpl; field; lra.
Qed.

Lemma scenario_wobble_precession (tau : R) :
  compute_wobble_precession scenario_eom
    (np.mk3 (fin 0) (fin 0) (fin 50)) (fin tau)
  = Ok (np.fin3 (vec.mk3 0 0 0)).
Proof.
  unfold compute_wobble_precession. cbv zeta.
  cbn [scenario_eom model _model scenario_model I_xx I_zz dampening_factor
       dampening_z np.i0 np.i1 np.i2 fmul fsub fneg fadd].
  rewrite pydiv_ok by (intro H; apply fin_inj in H; lra).
  cbn [bind]. rewrite !fdiv_fin by lra. f_equal.
  apply array3_eq; unfold np.add, np.smul, np.muls, np.fin3;
    cbn [np.i0 np.i1 np.i2 vec.i0 vec.i1 vec.i2 fmul fadd fneg];
    f_equal; field; lra.
Qed.

Lemma scenario_torque_scale :
  torque_scale scenario_eom (np.fin3 (vec.mk3 10 0 0)) = fin 0.959175.
Proof.
  unfold torque_scale. rewrite dot_fin3.
  cbn [scenario_eom environment model _environment _model
       scenario_environment scenario_model air_density area diameter fmul].
  f_equal. unfold vec.dot; simpl. lra.
Qed.

Lemma scenario_derivatives (rejects_nan : bool) (time : float) :
  compute_derivatives rejects_nan scenario_eom time scenario_state
  = Ok [fin 10; fin 0; fin 0; fin (-2.03); fin 0; fin (-3.72);
        fin 0; fin 0; fin 0; fin 0; fin 0; fin 0; fin 0].
Proof.
  unfold scenario_state.
  erewrite (compute_derivatives_eq rejects_nan scenario_eom time
              (fin 0) (fin 0) (fin 1) (fin 10) (fin 0) (fin 0)).
  2: apply from_quat_identity.
  2: { change (np.mk3 (fin 10) (fin 0) (fin 0))
         with (np.fin3 (vec.mk3 10 0 0)).
       rewrite compute_torques_zero_rate
         by (rewrite (scenario_angular_rate 0 0), norm_fin3, norm_axis by lra;
             reflexivity).
       unfold torques_with.
       rewrite scenario_torque_scale, scenario_wobble_precession.
       reflexivity. }
  cbn [forces T dq].
  rewrite (scenario_forces 0 0 50).
  reflexivity.
Qed.

(** * The claims *)

(** ** Degenerate velocity *)

(** what is not finite stays so under the operations of the resolver and
    of the rate *)
Lemma fneg_not_finite (x : float) :
  is_finite x = false -> is_finite (fneg x) = false.
Proof. destruct x; simpl; congruence. Qed.

Lemma fmul_not_finite_r (x y : float) :
  is_finite y = false -> is_finite (fmul x y) = false.
Proof.
  destruct x, y; simpl; try congruence; intros _;
    apply inf_of_sign_not_finite.
Qed.

Lemma fdiv_not_finite_l (x y : float) :
  is_finite x = false -> is_finite (fdiv x y) = false.
Proof.
  destruct x, y; simpl; try congruence; intros _;
    destruct (Rlt_dec r 0); reflexivity.
Qed.

Lemma divs_zero_not_finite (a : np.array3) :
  not_finite3 (np.divs a (fin 0)).
Proof. repeat split; apply fdiv_0_not_finite. Qed.

Lemma smul_not_finite (s : float) (a : np.array3) :
  not_finite3 a -> not_finite3 (np.smul s a).
Proof.
  intros (H0 & H1 & H2).
  repeat split; cbn [np.smul np.i0 np.i1 np.i2];
    apply fmul_not_finite_r; assumption.
Qed.

(** a basis without a finite entry leaves none in the rate *)
Lemma angular_rate_not_finite (self : EOM)
    (velocity ang_velocity : np.array3) (res : Forces) :
  not_finite3 (xhat (unit_vectors (quantities res))) ->
  not_finite3 (angular_rate self velocity ang_velocity res).
Proof.
  intro Hx. unfold angular_rate. cbv zeta.
  match goal with
  | |- not_finite3 (np.add (np.divs (np.add (np.smul ?c ?a) ?p) ?d) ?wob) =>
      destruct (smul_not_finite c a Hx) as (H0 & H1 & H2);
      generalize dependent (np.smul c a); intros r H0 H1 H2;
      generalize p d wob; intros p' d' wob'
  end.
  repeat split; cbn [np.add np.divs np.i0 np.i1 np.i2];
    apply fadd_not_finite_l, fdiv_not_finite_l, fadd_not_finite_l;
    assumption.
Qed.

(** a square root is zero on zero only *)
Lemma fsqrt_eq_0 (x : float) : fsqrt x = fin 0 -> x = fin 0.
Proof.
  destruct x as [a | | |]; simpl; try discriminate.
  destruct (Rlt_dec a 0) as [L | L]; [discriminate |].
  intro H. apply fin_inj in H. f_equal.
  apply sqrt_eq_0; lra.
Qed.

Lemma fmul_0_l (x : float) : fmul (fin 0) x = fin 0 \/ fmul (fin 0) x = nan.
Proof.
  destruct x; cbn [fmul].
  - left. f_equal. ring.
  - right. apply inf_of_sign_0.
  - right. replace (- 0) with 0 by ring. apply inf_of_sign_0.
  - right. reflexivity.
Qed.

(** zero times what is not finite is nan *)
Lemma fmul_0_not_finite (x : float) :
  is_finite x = false -> fmul (fin 0) x = nan.
Proof.
  destruct x; simpl; try congruence; intros _;
    rewrite ?Ropp_0; apply inf_of_sign_0.
Qed.

(** with a velocity of norm zero the drag, the total force and the
    acceleration are nan *)
Lemma compute_forces_zero_speed (self : EOM) (rotation : Rotation.t)
    (velocity ang_velocity : np.array3) :
  np.norm velocity = fin 0 ->
  let res := compute_forces self rotation velocity ang_velocity in
  F_drag res = np.nan3 /\ F_total res = np.nan3 /\ Acc res = np.nan3.
Proof.
  intro H. cbv zeta. unfold compute_forces. cbv zeta.
  cbn [F_drag F_total Acc]. rewrite H.
  apply fsqrt_eq_0 in H. rewrite H.
  assert (Hd : forall c rho a : float,
             np.smul (fmul c (fmul (fmul (fmul (fin 0.5) rho) (fin 0)) a))
                     (np.neg (np.divs velocity (fin 0))) = np.nan3).
  { intros c rho a.
    assert (Ha : fmul c (fmul (fmul (fmul (fin 0.5) rho) (fin 0)) a) = fin 0
                 \/ fmul c (fmul (fmul (fmul (fin 0.5) rho) (fin 0)) a) = nan).
    { destruct (fmul_0_r (fmul (fin 0.5) rho)) as [-> | ->].
      - destruct (fmul_0_l a) as [-> | ->];
          [apply fmul_0_r | right; apply fmul_nan_r].
      - right. cbn [fmul]. apply fmul_nan_r. }
    destruct (divs_zero_not_finite velocity) as (H0 & H1 & H2).
    apply array3_eq; cbn [np.smul np.neg np.nan3 np.i0 np.i1 np.i2];
      destruct Ha as [-> | ->]; try reflexivity;
      apply fmul_0_not_finite, fneg_not_finite; assumption. }
  rewrite Hd.
  assert (Ht : forall l gr s : np.array3,
             np.add (np.add (np.add l np.nan3) gr) s = np.nan3).
  { intros l gr s. apply array3_eq;
      cbn [np.add np.nan3 np.i0 np.i1 np.i2];
      rewrite fadd_nan_r; reflexivity. }
  rewrite Ht. repeat split.
Qed.

(** with an in-plane velocity of norm zero neither xhat nor the rate has a
    finite entry *)
Lemma quantities_zero_in_plane (rotation : Rotation.t)
    (velocity ang_velocity : np.array3) :
  np.norm (in_plane_velocity rotation velocity) = fin 0 ->
  not_finite3
    (xhat (unit_vectors
             (calculate_intermediate_quantities rotation velocity
                ang_velocity))).
Proof.
  intro H. rewrite calculate_intermediate_quantities_eq. cbv zeta.
  cbn [unit_vectors xhat]. rewrite H. apply divs_zero_not_finite.
Qed.

(** C1, on the code: there is no check of the velocity before the
    divisions by its norm and by the norm of its in-plane part, no
    tolerance and no error of the code's own; both divisions are done
    whatever the norms are.  For every state whose quaternion the
    constructor accepts:
    - when the norm of the velocity is zero, the drag, the total force and
      the linear acceleration are nan, and nothing is raised for it;
    - when the norm of the in-plane velocity is zero, xhat and the combined
      angular rate have no finite entry; the evaluation then ends in
      scipy's ValueError for a quaternion without a norm where scipy
      rejects a nan norm, and where it does not, in a derivative vector
      whose quaternion entries are nan (or in the ZeroDivisionError of a
      moment [I_xx] of zero). *)
Theorem velocity_unchecked (rejects_nan : bool) (self : EOM)
    (time x y z vx vy vz qx qy qz qw dphi dtheta dgamma : float)
    (rotation : Rotation.t) :
  Rotation.from_quat rejects_nan (np.mk4 qx qy qz qw) = Ok rotation ->
  let velocity := np.mk3 vx vy vz in
  let ang_velocity := np.mk3 dphi dtheta dgamma in
  let coordinates :=
    [x; y; z; vx; vy; vz; qx; qy; qz; qw; dphi; dtheta; dgamma] in
  let res := compute_forces self rotation velocity ang_velocity in
  (np.norm velocity = fin 0 ->
   F_drag res = np.nan3 /\ F_total res = np.nan3 /\ Acc res = np.nan3)
  /\ (np.norm (in_plane_velocity rotation velocity) = fin 0 ->
      xhat (unit_vectors (quantities res))
      = np.divs (in_plane_velocity rotation velocity) (fin 0)
      /\ not_finite3 (xhat (unit_vectors (quantities res)))
      /\ not_finite3 (angular_rate self velocity ang_velocity res)
      /\ if rejects_nan
         then compute_derivatives rejects_nan self time coordinates
              = Raise ValueError_zero_norm
         else (I_xx (model self) = fin 0
               /\ compute_derivatives rejects_nan self time coordinates
                  = Raise ZeroDivisionError)
              \/ (exists d,
                    compute_derivatives rejects_nan self time coordinates
                    = Ok d
                    /\ nth 6 d (fin 0) = nan /\ nth 7 d (fin 0) = nan
                    /\ nth 8 d (fin 0) = nan /\ nth 9 d (fin 0) = nan)).
Proof.
  intros Hq. cbv zeta. split.
  - apply compute_forces_zero_speed.
  - intro Hp.
    pose proof (quantities_zero_in_plane rotation (np.mk3 vx vy vz)
                  (np.mk3 dphi dtheta dgamma) Hp) as Hx.
    change (quantities (compute_forces ?s ?r ?vv ?av))
      with (calculate_intermediate_quantities r vv av).
    split.
    { rewrite calculate_intermediate_quantities_eq. cbv zeta.
      cbn [unit_vectors xhat]. rewrite Hp. reflexivity. }
    split; [exact Hx |].
    pose proof (angular_rate_not_finite self (np.mk3 vx vy vz)
                  (np.mk3 dphi dtheta dgamma)
                  (compute_forces self rotation (np.mk3 vx vy vz)
                     (np.mk3 dphi dtheta dgamma)) Hx) as Hw.
    split; [exact Hw |].
    pose proof (compute_torques_not_finite rejects_nan self _ _ rotation _ Hw)
      as Ht.
    destruct rejects_nan.
    + eapply compute_derivatives_raise; [exact Hq | exact Ht].
    + unfold torques_with in Ht.
      destruct (compute_wobble_precession self (np.mk3 dphi dtheta dgamma)
                  (torque_scale self (np.mk3 vx vy vz))) as [T0 | e] eqn:HT;
        cbn [bind] in Ht.
      * right. eexists. split.
        -- eapply compute_derivatives_eq; [exact Hq | exact Ht].
        -- repeat split.
      * left. apply compute_wobble_precession_error in HT as (-> & Hxx).
        split; [exact Hxx |].
        eapply compute_derivatives_raise; [exact Hq | exact Ht].
Qed.

Lemma velocity_unchecked_witness :
  compute_derivatives true scenario_eom (fin 0)
    [fin 0; fin 0; fin 1; fin 0; fin 0; fin 5;
     fin 0; fin 0; fin 0; fin 1; fin 0; fin 0; fin 50]
  = Raise ValueError_zero_norm.
Proof.
  apply (velocity_unchecked true scenario_eom (fin 0) (fin 0) (fin 0) (fin 1)
           (fin 0) (fin 0) (fin 5) (fin 0) (fin 0) (fin 0) (fin 1)
           (fin 0) (fin 0) (fin 50) identity_rotation
           (from_quat_identity true)).
  change identity_rotation with (Rotation.mk (np.fin4 (vec.mk4 0 0 0 1))).
  change (np.mk3 (fin 0) (fin 0) (fin 5)) with (np.fin3 (vec.mk3 0 0 5)).
  rewrite in_plane_velocity_fin, norm_fin3, identity_in_plane.
  cbn [vec.i0 vec.i1]. rewrite norm_axis by lra. reflexivity.
Defined.

(** C1 as stated fails: in the scenario with the velocity (1e-12, 0, 5),
    parallel to the disc normal but for an in-plane part of norm 1e-12, the
    evaluation returns a derivative vector, whatever scipy does with nan. *)
Lemma near_zero_in_plane_counterexample :
  np.norm (in_plane_velocity identity_rotation (np.fin3 (vec.mk3 1e-12 0 5)))
  = fin 1e-12
  /\ returns
       (compute_derivatives true scenario_eom (fin 0)
          [fin 0; fin 0; fin 1; fin 1e-12; fin 0; fin 5;
           fin 0; fin 0; fin 0; fin 1; fin 0; fin 0; fin 50])
  /\ returns
       (compute_derivatives false scenario_eom (fin 0)
          [fin 0; fin 0; fin 1; fin 1e-12; fin 0; fin 5;
           fin 0; fin 0; fin 0; fin 1; fin 0; fin 0; fin 50]).
Proof.
  assert (Hn : np.norm (in_plane_velocity identity_rotation
                          (np.fin3 (vec.mk3 1e-12 0 5))) = fin 1e-12).
  { change identity_rotation with (Rotation.mk (np.fin4 (vec.mk4 0 0 0 1))).
    rewrite in_plane_velocity_fin, norm_fin3, identity_in_plane.
    cbn [vec.i0 vec.i1]. rewrite norm_axis by lra. reflexivity. }
  split; [exact Hn |].
  split.
  - apply (compute_derivatives_returns true scenario_eom (fin 0)
             (fin 0) (fin 0) (fin 1) (vec.mk4 0 0 0 1) (vec.mk3 1e-12 0 5)
             0 0 50 identity_rotation scenario_finite_moments
             (from_quat_identity true)).
    + rewrite Hn. intro H. apply fin_inj in H. lra.
    + cbn. intro H. apply fin_inj in H. lra.
    + cbn. intro H. apply fin_inj in H. lra.
  - apply (compute_derivatives_returns false scenario_eom (fin 0)
             (fin 0) (fin 0) (fin 1) (vec.mk4 0 0 0 1) (vec.mk3 1e-12 0 5)
             0 0 50 identity_rotation scenario_finite_moments
             (from_quat_identity false)).
    + rewrite Hn. intro H. apply fin_inj in H. lra.
    + cbn. intro H. apply fin_inj in H. lra.
    + cbn. intro H. apply fin_inj in H. lra.
Qed.

(** ** Zero spin *)

(** C2, on the code: there is no check of the spin rate and no zero-spin
    error.  With [dgamma = 0] the division of the roll and pitch moments by
    [I_zz * dgamma] is performed and leaves an infinity or nan in every
    entry of the combined rate.  The torque step then ends in scipy's
    ValueError for a quaternion without a norm (the exception a zero
    quaternion raises) where scipy rejects a nan norm; where it does not,
    the step goes on to the angular acceleration and returns a quaternion
    derivative of nans (or raises the ZeroDivisionError of a moment [I_xx]
    of zero). *)
Theorem zero_spin_unchecked (rejects_nan : bool) (self : EOM)
    (velocity ang_velocity : np.array3) (rotation : Rotation.t)
    (res : Forces) :
  np.i2 ang_velocity = fin 0 ->
  not_finite3 (angular_rate self velocity ang_velocity res)
  /\ compute_torques rejects_nan self velocity ang_velocity rotation res
     = if rejects_nan then Raise ValueError_zero_norm
       else bind (compute_wobble_precession self ang_velocity
                    (torque_scale self velocity))
                 (fun T =>
                    Ok {| forces := res;
                          torque_amplitude := torque_scale self velocity;
                          T := T;
                          dq := np.nan4 |}).
Proof.
  intro H. pose proof (angular_rate_zero_spin self velocity _ res H) as Hn.
  split; [exact Hn |].
  apply compute_torques_not_finite, Hn.
Qed.

Lemma zero_spin_unchecked_witness :
  compute_torques true scenario_eom (np.fin3 (vec.mk3 10 0 0))
    (np.mk3 (fin 0) (fin 0) (fin 0)) identity_rotation
    (compute_forces scenario_eom identity_rotation (np.fin3 (vec.mk3 10 0 0))
       (np.mk3 (fin 0) (fin 0) (fin 0)))
  = Raise ValueError_zero_norm.
Proof.
  apply (zero_spin_unchecked true scenario_eom (np.fin3 (vec.mk3 10 0 0))
           (np.mk3 (fin 0) (fin 0) (fin 0)) identity_rotation).
  reflexivity.
Defined.

(** C2 as stated fails: in the scenario with a spin rate of zero the torque
    step raises the exception that a zero quaternion raises, or, where
    scipy lets a nan norm pass, returns; in neither case an error of its
    own for the spin. *)
Lemma zero_spin_counterexample :
  compute_torques true scenario_eom (np.fin3 (vec.mk3 10 0 0))
    (np.mk3 (fin 0) (fin 0) (fin 0)) identity_rotation
    (compute_forces scenario_eom identity_rotation (np.fin3 (vec.mk3 10 0 0))
       (np.mk3 (fin 0) (fin 0) (fin 0)))
  = Raise ValueError_zero_norm
  /\ Rotation.from_quat true (np.mk4 (fin 0) (fin 0) (fin 0) (fin 0))
     = Raise ValueError_zero_norm
  /\ returns
       (compute_torques false scenario_eom (np.fin3 (vec.mk3 10 0 0))
          (np.mk3 (fin 0) (fin 0) (fin 0)) identity_rotation
          (compute_forces scenario_eom identity_rotation
             (np.fin3 (vec.mk3 10 0 0)) (np.mk3 (fin 0) (fin 0) (fin 0)))).
Proof.
  split; [| split].
  - rewrite compute_torques_not_finite
      by (apply angular_rate_zero_spin; reflexivity).
    reflexivity.
  - apply (from_quat_zero true (vec.mk4 0 0 0 0)).
    apply norm4_eq_0. unfold vec.dot4; simpl. ring.
  - rewrite compute_torques_not_finite
      by (apply angular_rate_zero_spin; reflexivity).
    unfold torques_with.
    destruct (compute_wobble_precession_returns scenario_eom
                (np.mk3 (fin 0) (fin 0) (fin 0))
                (torque_scale scenario_eom (np.fin3 (vec.mk3 10 0 0))))
      as [T0 ->].
    + cbn. intro H. apply fin_inj in H. lra.
    + eexists. reflexivity.
Qed.

(** ** Forces *)




(** ** Quaternion kinematics *)

(** C4, on the code: [math.isclose(0, w_norm)] is called with its default
    tolerances, a relative one of 1e-9 and an absolute one of zero.
    Against zero the relative tolerance is [1e-9 * |w_norm|], below
    [|w_norm|] itself, so the test holds for no float but zero: the
    comparison the code makes with a function meant for tolerances is an
    exact one (on doubles as well: the smallest positive double is not
    close to zero).  In the scenario with a roll rate of 1e-12 the combined
    rate has norm 1e-12, the test is false, the branch of the product is
    taken, and the derivative is not the one made from the identity
    rotation. *)
Theorem isclose_without_tolerance :
  (forall x : float, math.isclose (fin 0) x = true <-> x = fin 0)
  /\ binary64.math.isclose PrimFloat.zero binary64.tiny = false
  /\ let res :=
       compute_forces scenario_eom identity_rotation
         (np.fin3 (vec.mk3 10 0 0)) (np.mk3 (fin 1e-12) (fin 0) (fin 50)) in
     let w_norm :=
       np.norm (angular_rate scenario_eom (np.fin3 (vec.mk3 10 0 0))
                  (np.mk3 (fin 1e-12) (fin 0) (fin 50)) res) in
     w_norm = fin 1e-12
     /\ math.isclose (fin 0) w_norm = false
     /\ exists t,
          compute_torques true scenario_eom (np.fin3 (vec.mk3 10 0 0))
            (np.mk3 (fin 1e-12) (fin 0) (fin 50)) identity_rotation res
          = Ok t
          /\ dq t = np.fin4 (vec.mk4 5e-13 0 0 0)
          /\ dq t
             <> np.divs4
                  (np.muls4 (np.mk4 (fin 0) (fin 0) (fin 0) (fin 1)) w_norm)
                  (fin 2).
Proof.
  split; [exact isclose_0_iff |].
  split; [reflexivity |].
  cbv zeta. rewrite scenario_angular_rate.
  assert (Hn : vec.norm (vec.mk3 1e-12 0 0) = 1e-12) by (apply norm_axis; lra).
  rewrite norm_fin3, Hn.
  split; [reflexivity |].
  split; [apply isclose_0_fin_false; lra |].
  destruct (compute_wobble_precession_returns scenario_eom
              (np.mk3 (fin 1e-12) (fin 0) (fin 50))
              (torque_scale scenario_eom (np.fin3 (vec.mk3 10 0 0))))
    as [T0 HT].
  { cbn. intro H. apply fin_inj in H. lra. }
  eexists. split.
  - rewrite (compute_torques_general true scenario_eom _ _ identity_rotation _
               (vec.mk3 1e-12 0 0) (vec.mk4 0 0 0 1)).
    + unfold torques_with. rewrite HT. reflexivity.
    + apply scenario_angular_rate.
    + rewrite Hn. lra.
    + reflexivity.
    + unfold vec.dot4; simpl; ring.
  - cbn [dq]. split.
    + apply f_equal, t4_eq; unfold vec.scale4, vec.hamilton; simpl; lra.
    + intro H. apply (f_equal np.j0) in H.
      unfold np.divs4, np.muls4, np.fin4, vec.scale4, vec.hamilton in H.
      cbn [np.j0 vec.j0 vec.j1 vec.j2 vec.j3 vec.i0 vec.i1 vec.i2 fmul] in H.
      rewrite fdiv_fin in H by lra. apply fin_inj in H. lra.
Qed.

(** ** The torque-free disc *)









(** ** The resolver *)



Section Doubles.

Import PrimFloat.
Local Open Scope float_scope.


End Doubles.

(** C7: on a non-degenerate input the resolver's angle of attack is
    [- arctan (v_dot_zhat / |v_in_plane|)], and it is exactly zero when the
    velocity lies in the disc plane ([v_dot_zhat = 0]). *)
Theorem angle_of_attack_spec (rotation : Rotation.t)
    (velocity ang_velocity : np.array3) (n : R) :
  np.norm (in_plane_velocity rotation velocity) = fin n ->
  n <> 0 ->
  let res := calculate_intermediate_quantities rotation velocity ang_velocity in
  let zhat_ :=
    np.matvec (Rotation.as_matrix rotation) (np.mk3 (fin 0) (fin 0) (fin 1)) in
  let v_dot_zhat := np.dot velocity zhat_ in
  let v_in_plane := np.sub velocity (np.muls zhat_ v_dot_zhat) in
  angle_of_attack res = fneg (arctan (fdiv v_dot_zhat (np.norm v_in_plane)))
  /\ (v_dot_zhat = fin 0 -> angle_of_attack res = fin 0).
Proof.
  intros Hn N. cbv zeta. split; [reflexivity |].
  intro H. unfold calculate_intermediate_quantities. cbn [angle_of_attack].
  rewrite H.
  change (np.sub velocity
            (np.muls (np.matvec (Rotation.as_matrix rotation)
                        (np.mk3 (fin 0) (fin 0) (fin 1))) (fin 0)))
    with (np.sub velocity
            (np.muls (disc_normal rotation) (fin 0))).
  unfold in_plane_velocity, normal_velocity, disc_normal in Hn.
  rewrite H in Hn. unfold disc_normal. rewrite Hn.
  rewrite fdiv_fin by exact N. cbn [arctan fneg].
  f_equal. unfold Rdiv. rewrite Rmult_0_l, atan_0. ring.
Qed.

Lemma angle_of_attack_spec_witness :
  angle_of_attack
    (calculate_intermediate_quantities identity_rotation
       (np.fin3 (vec.mk3 10 0 0)) (np.mk3 (fin 0) (fin 0) (fin 50)))
  = fin 0.
Proof.
  apply (angle_of_attack_spec identity_rotation (np.fin3 (vec.mk3 10 0 0))
           (np.mk3 (fin 0) (fin 0) (fin 50)) 10).
  - change identity_rotation with (Rotation.mk (np.fin4 (vec.mk4 0 0 0 1))).
    rewrite in_plane_velocity_fin, norm_fin3, identity_in_plane.
    cbn [vec.i0 vec.i1]. rewrite norm_axis by lra. reflexivity.
  - lra.
  - change (np.dot (np.fin3 (vec.mk3 10 0 0))
              (disc_normal (Rotation.mk (np.fin4 (vec.mk4 0 0 0 1))))
            = fin 0).
    rewrite disc_normal_fin, dot_fin3, identity_normal.
    f_equal. unfold vec.dot; simpl. ring.
Defined.

(** ** The derivative vector *)

(** C8: a state of 13 entries that the entry point accepts yields a vector
    of exactly 13 entries: the three velocity components of the state as
    they came, then the three components of the linear acceleration, the
    four of the quaternion derivative and the three of the angular
    acceleration, all taken from the dictionary the force and torque steps
    filled for that state. *)
Theorem derivative_layout (rejects_nan : bool) (self : EOM) (time : float)
    (coordinates d : list float) :
  length coordinates = 13%nat ->
  compute_derivatives rejects_nan self time coordinates = Ok d ->
  let c := fun i => nth i coordinates (fin 0) in
  let velocity := np.mk3 (c 3%nat) (c 4%nat) (c 5%nat) in
  let quaternion := np.mk4 (c 6%nat) (c 7%nat) (c 8%nat) (c 9%nat) in
  let ang_velocity := np.mk3 (c 10%nat) (c 11%nat) (c 12%nat) in
  exists rotation res,
    Rotation.from_quat rejects_nan quaternion = Ok rotation
    /\ compute_torques rejects_nan self velocity ang_velocity rotation
         (compute_forces self rotation velocity ang_velocity) = Ok res
    /\ length d = 13%nat
    /\ d = [ np.i0 velocity; np.i1 velocity; np.i2 velocity;
             np.i0 (Acc (forces res)); np.i1 (Acc (forces res));
             np.i2 (Acc (forces res));
             np.j0 (dq res); np.j1 (dq res); np.j2 (dq res); np.j3 (dq res);
             np.i0 (T res); np.i1 (T res); np.i2 (T res) ].
Proof.
  intros _ H.
  apply compute_derivatives_inv in H
    as (x & y & z & vx & vy & vz & qx & qy & qz & qw & dphi & dtheta & dgamma
        & rotation & t & -> & Hq & Ht & ->).
  cbv zeta. cbn [nth np.i0 np.i1 np.i2].
  exists rotation, t. repeat split; assumption.
Qed.

Lemma derivative_layout_witness :
  exists rotation res,
    Rotation.from_quat true (np.mk4 (fin 0) (fin 0) (fin 0) (fin 1))
    = Ok rotation
    /\ compute_torques true scenario_eom (np.mk3 (fin 10) (fin 0) (fin 0))
         (np.mk3 (fin 0) (fin 0) (fin 50)) rotation
         (compute_forces scenario_eom rotation (np.mk3 (fin 10) (fin 0) (fin 0))
            (np.mk3 (fin 0) (fin 0) (fin 50))) = Ok res
    /\ length [fin 10; fin 0; fin 0; fin (-2.03); fin 0; fin (-3.72);
               fin 0; fin 0; fin 0; fin 0; fin 0; fin 0; fin 0] = 13%nat
    /\ [fin 10; fin 0; fin 0; fin (-2.03); fin 0; fin (-3.72);
        fin 0; fin 0; fin 0; fin 0; fin 0; fin 0; fin 0]
       = [ fin 10; fin 0; fin 0;
           np.i0 (Acc (forces res)); np.i1 (Acc (forces res));
           np.i2 (Acc (forces res));
           np.j0 (dq res); np.j1 (dq res); np.j2 (dq res); np.j3 (dq res);
           np.i0 (T res); np.i1 (T res); np.i2 (T res) ].
Proof.
  exact (derivative_layout true scenario_eom (fin 0) scenario_state
           [fin 10; fin 0; fin 0; fin (-2.03); fin 0; fin (-3.72);
            fin 0; fin 0; fin 0; fin 0; fin 0; fin 0; fin 0]
           eq_refl (scenario_derivatives true (fin 0))).
Defined.

(** ** Statelessness *)

Lemma nth_error_last (ds : list stateful.dict) (d : stateful.dict) :
  nth_error (ds ++ [d]) (List.length ds) = Some d.
Proof.
  rewrite nth_error_app2 by apply Nat.le_refl.
  rewrite Nat.sub_diag. reflexivity.
Qed.

Lemma replace_nth_last (ds : list stateful.dict) (d d' : stateful.dict) :
  stateful.replace_nth (ds ++ [d]) (List.length ds) d' = (ds ++ [d'])%list.
Proof.
  induction ds as [| d0 ds IH]; [reflexivity |].
  cbn [app List.length stateful.replace_nth]. rewrite IH. reflexivity.
Qed.

Section Runs.

Import String.
Local Open Scope string_scope.

Variable rejects_nan : bool.

(** one step of a method on the store: the reads and writes of the dict
    made last, and the reads of the attributes *)
Ltac run :=
  repeat first
    [ rewrite nth_error_last
    | rewrite replace_nth_last
    | progress cbv beta iota zeta
        delta [stateful.bindM stateful.ret stateful.raise stateful.lift
               stateful.getattr_environment stateful.getattr_model
               stateful.new_dict stateful.getitem stateful.setitem
               stateful.get_float stateful.get_array3
               stateful.get_array4 stateful.get_vectors
               stateful.dicts stateful.attributes
               stateful.lookup stateful.assign
               String.eqb Ascii.eqb Bool.eqb andb] ].

(** [compute_forces] makes one dict, fills it with the values of the
    function of the first part, and touches nothing else *)
Lemma compute_forces_run (rotation : Rotation.t)
    (velocity ang_velocity : np.array3) (s : stateful.store) :
  stateful.compute_forces rotation velocity ang_velocity s
  = (Ok (List.length (stateful.dicts s)),
     stateful.extends s
       [stateful.dict_of_forces
          (compute_forces (stateful.attributes s) rotation velocity
             ang_velocity)]).
Proof.
  destruct s as [attrs ds].
  unfold stateful.compute_forces, stateful.calculate_intermediate_quantities.
  run. reflexivity.
Qed.

(** [compute_torques] writes three more keys to the dict it is given; when
    it raises, the store has no more dicts than before and the same
    attributes *)
Lemma compute_torques_run (attrs : EOM) (ds : list stateful.dict)
    (velocity ang_velocity : np.array3) (rotation : Rotation.t)
    (f : Forces) :
  exists d,
    stateful.compute_torques rejects_nan velocity ang_velocity rotation
      (List.length ds)
      {| stateful.attributes := attrs;
         stateful.dicts := (ds ++ [stateful.dict_of_forces f])%list |}
    = (map_result (fun _ => List.length ds)
         (compute_torques rejects_nan attrs velocity ang_velocity rotation f),
       {| stateful.attributes := attrs;
          stateful.dicts := (ds ++ [d])%list |})
    /\ forall t,
         compute_torques rejects_nan attrs velocity ang_velocity rotation f
         = Ok t ->
         d = stateful.dict_of_torques t.
Proof.
  unfold stateful.compute_torques, stateful.compute_wobble_precession,
    compute_torques, compute_wobble_precession, stateful.dict_of_forces.
  run.
  fold (model attrs). fold (environment attrs).
  fold (torque_scale attrs velocity).
  fold (angular_rate attrs velocity ang_velocity f).
  match goal with
  | |- context [math.isclose ?a ?b] => destruct (math.isclose a b)
  end.
  - destruct (Rotation.from_quat rejects_nan _) as [wquat | e];
      cbn [bind map_result]; run.
    + destruct (pydiv _ _) as [ratio | e]; cbn [bind map_result]; run.
      * eexists. split; [reflexivity |].
        intros t H. injection H as <-. reflexivity.
      * eexists. split; [reflexivity |]. discriminate.
    + eexists. split; [reflexivity |]. discriminate.
  - destruct (Rotation.from_quat rejects_nan _) as [wrot | e];
      cbn [bind map_result]; run.
    + destruct (Rotation.mul rejects_nan wrot rotation) as [wquat | e];
        cbn [bind map_result]; run.
      * destruct (pydiv _ _) as [ratio | e]; cbn [bind map_result]; run.
        -- eexists. split; [reflexivity |].
           intros t H. injection H as <-. reflexivity.
        -- eexists. split; [reflexivity |]. discriminate.
      * eexists. split; [reflexivity |]. discriminate.
    + eexists. split; [reflexivity |]. discriminate.
Qed.

(** the entry point on a store: the result is the one of the function of
    the first part on the attributes the store holds, the attributes are
    left as they are, and so is every dict that was there *)
Lemma compute_derivatives_run (time : float) (coordinates : list float)
    (s : stateful.store) :
  exists ds,
    stateful.compute_derivatives rejects_nan time coordinates s
    = (compute_derivatives rejects_nan (stateful.attributes s) time
         coordinates,
       stateful.extends s ds).
Proof.
  destruct s as [attrs ds0].
  unfold stateful.compute_derivatives, compute_derivatives.
  do 13 (destruct coordinates as [| ? coordinates];
         [exists []; unfold stateful.extends, stateful.raise;
          cbn [stateful.attributes stateful.dicts];
          rewrite app_nil_r; reflexivity |]).
  destruct coordinates;
    [| exists []; unfold stateful.extends, stateful.raise;
       cbn [stateful.attributes stateful.dicts];
       rewrite app_nil_r; reflexivity].
  cbn [stateful.attributes].
  unfold stateful.bindM at 1. unfold stateful.lift at 1.
  destruct (Rotation.from_quat rejects_nan _) as [rotation | e];
    cbn [bind].
  - unfold stateful.bindM at 1. rewrite compute_forces_run.
    unfold stateful.extends. cbn [stateful.attributes stateful.dicts].
    unfold stateful.bindM at 1.
    destruct (compute_torques_run attrs ds0 (np.mk3 f2 f3 f4)
                (np.mk3 f9 f10 f11) rotation
                (compute_forces attrs rotation (np.mk3 f2 f3 f4)
                   (np.mk3 f9 f10 f11))) as (d & -> & Hd).
    destruct (compute_torques rejects_nan attrs _ _ rotation _) as [t | e];
      cbn [bind map_result].
    + rewrite (Hd t eq_refl). unfold stateful.dict_of_torques, stateful.dict_of_forces.
      cbn [app]. run. exists [stateful.dict_of_torques t]. reflexivity.
    + exists [d]. reflexivity.
  - exists []. unfold stateful.extends.
    cbn [stateful.attributes stateful.dicts].
    rewrite app_nil_r. reflexivity.
Qed.

(** a session leaves the attributes as they are, and the dicts that were
    there *)
Lemma session_run (calls : list (float * list float)) (s : stateful.store) :
  exists ds,
    snd (stateful.session rejects_nan calls s) = stateful.extends s ds.
Proof.
  revert s. induction calls as [| [time coordinates] rest IH]; intro s.
  - exists []. destruct s as [attrs ds0]. unfold stateful.extends.
    cbn [stateful.session snd stateful.attributes stateful.dicts].
    rewrite app_nil_r. reflexivity.
  - cbn [stateful.session].
    destruct (compute_derivatives_run time coordinates s) as (ds1 & ->).
    destruct (IH (stateful.extends s ds1)) as (ds2 & H).
    destruct (stateful.session rejects_nan rest (stateful.extends s ds1))
      as [rs s2].
    cbn [snd] in *. subst s2.
    exists (ds1 ++ ds2)%list. unfold stateful.extends.
    cbn [stateful.attributes stateful.dicts]. rewrite app_assoc.
    reflexivity.
Qed.

End Runs.

(** C9: the entry point is a function of the state, the Environment and the
    Model alone.  On the store (the attributes of the [EOM] object and the
    dicts made so far), whatever calls were made before (two sessions
    [before1] and [before2] from the same store) and whatever times are
    passed, two evaluations on the same state give the same result, the
    one of the function of the first part on the Environment and the Model
    the object holds; and an evaluation leaves the attributes of the
    object, its Environment and its Model, as they were, and every dict
    that was there untouched: what it writes, it writes to the dict it
    has made itself. *)
Theorem compute_derivatives_stateless (rejects_nan : bool)
    (s : stateful.store) (before1 before2 : list (float * list float))
    (time1 time2 : float) (coordinates : list float) :
  let s1 := snd (stateful.session rejects_nan before1 s) in
  let s2 := snd (stateful.session rejects_nan before2 s) in
  let run1 := stateful.compute_derivatives rejects_nan time1 coordinates s1 in
  let run2 := stateful.compute_derivatives rejects_nan time2 coordinates s2 in
  fst run1 = fst run2
  /\ fst run1
     = compute_derivatives rejects_nan (stateful.attributes s) (fin 0)
         coordinates
  /\ stateful.attributes (snd run1) = stateful.attributes s
  /\ environment (stateful.attributes (snd run1))
     = environment (stateful.attributes s)
  /\ model (stateful.attributes (snd run1)) = model (stateful.attributes s)
  /\ firstn (List.length (stateful.dicts s)) (stateful.dicts (snd run1))
     = stateful.dicts s.
Proof.
  cbv zeta.
  destruct (session_run rejects_nan before1 s) as (ds1 & ->).
  destruct (session_run rejects_nan before2 s) as (ds2 & ->).
  destruct (compute_derivatives_run rejects_nan time1 coordinates
              (stateful.extends s ds1)) as (ds1' & ->).
  destruct (compute_derivatives_run rejects_nan time2 coordinates
              (stateful.extends s ds2)) as (ds2' & ->).
  unfold stateful.extends. cbn [fst snd stateful.attributes stateful.dicts].
  assert (Ht : forall t1 t2,
             compute_derivatives rejects_nan (stateful.attributes s) t1
               coordinates
             = compute_derivatives rejects_nan (stateful.attributes s) t2
                 coordinates).
  { intros t1 t2. unfold compute_derivatives. reflexivity. }
  repeat split; try apply Ht.
  rewrite <- app_assoc, firstn_app, Nat.sub_diag, firstn_all.
  cbn [firstn]. apply app_nil_r.
Qed.

(** ** Scaling the quaternion *)




Section ScaledDoubles.

Import PrimFloat.
Local Open Scope float_scope.


End ScaledDoubles.

(** * Further properties of the code *)

(** ** The errors of the entry point *)

Lemma from_quat_raise (rejects_nan : bool) (q : np.array4) (e : exception) :
  Rotation.from_quat rejects_nan q = Raise e -> e = ValueError_zero_norm.
Proof.
  unfold Rotation.from_quat. cbv zeta.
  destruct (feqb _ _); [intro H; injection H as <-; reflexivity |].
  destruct (isnan _ && rejects_nan)%bool; [| discriminate].
  intro H; injection H as <-; reflexivity.
Qed.

(** the torque step raises the constructor's error, or, with it out of the
    way, the division error of a moment [I_xx] of zero *)
Lemma compute_torques_raise (rejects_nan : bool) (self : EOM)
    (velocity ang_velocity : np.array3) (rotation : Rotation.t)
    (res : Forces) (e : exception) :
  compute_torques rejects_nan self velocity ang_velocity rotation res
  = Raise e ->
  e = ValueError_zero_norm
  \/ (e = ZeroDivisionError /\ I_xx (model self) = fin 0).
Proof.
  unfold compute_torques. cbv zeta.
  assert (Hw : forall (k : np.array3 -> result Torques) e',
             (forall T0, k T0 <> Raise e') ->
             bind (compute_wobble_precession self ang_velocity
                     (torque_scale self velocity)) k = Raise e' ->
             e' = ZeroDivisionError /\ I_xx (model self) = fin 0).
  { intros k e' Hk.
    destruct (compute_wobble_precession _ _ _) as [T0 | e0] eqn:H;
      cbn [bind].
    - intro E. exfalso. exact (Hk T0 E).
    - intro E. injection E as <-.
      eapply compute_wobble_precession_error, H. }
  match goal with
  | |- bind ?m _ = _ -> _ => destruct m as [wquat | e'] eqn:Hq
  end; cbn [bind].
  - intro E. right. eapply (Hw _ e); [| exact E].
    intros T0. discriminate.
  - intro E. injection E as <-. left.
    destruct (math.isclose _ _).
    + eapply from_quat_raise, Hq.
    + destruct (Rotation.from_quat _ _) as [r | e''] eqn:H;
        cbn [bind] in Hq.
      * eapply from_quat_raise, Hq.
      * injection Hq as <-. eapply from_quat_raise, H.
Qed.

Lemma from_quat_zeros (rejects_nan : bool) :
  Rotation.from_quat rejects_nan (np.mk4 (fin 0) (fin 0) (fin 0) (fin 0))
  = Raise ValueError_zero_norm.
Proof.
  apply (from_quat_zero rejects_nan (vec.mk4 0 0 0 0)).
  apply norm4_eq_0. unfold vec.dot4; simpl. ring.
Qed.

(** what the entry point can raise, and when *)
Lemma compute_derivatives_raise_inv (rejects_nan : bool) (self : EOM)
    (time : float) (coordinates : list float) (e : exception) :
  compute_derivatives rejects_nan self time coordinates = Raise e ->
  (e = ValueError_unpack /\ length coordinates <> 13%nat)
  \/ (length coordinates = 13%nat
      /\ (e = ValueError_zero_norm
          \/ (e = ZeroDivisionError /\ I_xx (model self) = fin 0))).
Proof.
  destruct (Nat.eq_dec (length coordinates) 13) as [L | L].
  - intro H. right. split; [exact L |]. revert H.
    do 13 (destruct coordinates as [| ? coordinates];
           [simpl in L; discriminate L |]).
    destruct coordinates; [| simpl in L; discriminate L].
    unfold compute_derivatives.
    destruct (Rotation.from_quat _ _) as [r | e'] eqn:H; cbn [bind].
    + destruct (compute_torques _ _ _ _ _ _) as [t | e'] eqn:H'; cbn [bind];
        [discriminate |].
      intro E. injection E as <-. eapply compute_torques_raise, H'.
    + intro E. injection E as <-. left. eapply from_quat_raise, H.
  - intro H. left. split; [| exact L]. revert H.
    do 13 (destruct coordinates as [| ? coordinates];
           [intro H; injection H as <-; reflexivity |]).
    destruct coordinates; [exfalso; apply L; reflexivity |].
    intro H; injection H as <-; reflexivity.
Qed.

(** X1: the errors of the entry point.  It raises the ValueError of a
    failed unpacking exactly on the sequences that have not 13 entries.
    It raises a ZeroDivisionError only on 13 entries and a model whose
    [I_xx] is zero, and with such a model it returns on no state: the
    quaternion is rejected, or the division by [I_xx] raises.  A state
    whose quaternion is (0, 0, 0, 0) is rejected with the constructor's
    ValueError before anything else is computed, whatever its other
    entries and the collaborators are. *)
Theorem entry_point_errors (rejects_nan : bool) (self : EOM) (time : float)
    (coordinates : list float) :
  (compute_derivatives rejects_nan self time coordinates
   = Raise ValueError_unpack
   <-> length coordinates <> 13%nat)
  /\ (compute_derivatives rejects_nan self time coordinates
      = Raise ZeroDivisionError ->
      length coordinates = 13%nat /\ I_xx (model self) = fin 0)
  /\ (I_xx (model self) = fin 0 -> length coordinates = 13%nat ->
      compute_derivatives rejects_nan self time coordinates
      = Raise ValueError_zero_norm
      \/ compute_derivatives rejects_nan self time coordinates
         = Raise ZeroDivisionError)
  /\ (forall x y z vx vy vz dphi dtheta dgamma : float,
        compute_derivatives rejects_nan self time
          [x; y; z; vx; vy; vz; fin 0; fin 0; fin 0; fin 0;
           dphi; dtheta; dgamma]
        = Raise ValueError_zero_norm).
Proof.
  assert (Hn : length coordinates <> 13%nat ->
               compute_derivatives rejects_nan self time coordinates
               = Raise ValueError_unpack).
  { intro L.
    do 13 (destruct coordinates as [| ? coordinates]; [reflexivity |]).
    destruct coordinates; [exfalso; apply L; reflexivity | reflexivity]. }
  split; [| split; [| split]].
  - split.
    + intros H L.
      destruct (compute_derivatives_raise_inv _ _ _ _ _ H)
        as [(_ & N) | (_ & [E | (E & _)])];
        [exact (N L) | discriminate E | discriminate E].
    + exact Hn.
  - intro H.
    destruct (compute_derivatives_raise_inv _ _ _ _ _ H)
      as [(E & _) | (L & [E | (_ & E)])];
      [discriminate E | discriminate E | split; assumption].
  - intros Hx L.
    destruct (compute_derivatives rejects_nan self time coordinates)
      as [d | e] eqn:H.
    + exfalso.
      apply compute_derivatives_inv in H.
      destruct H as (x & y & z & vx & vy & vz & qx & qy & qz & qw & dphi
                     & dtheta & dgamma & rotation & t & _ & _ & Ht & _).
      apply compute_torques_inv in Ht as (_ & _ & HT).
      rewrite (compute_wobble_precession_raises self _ _ Hx) in HT.
      discriminate HT.
    + destruct (compute_derivatives_raise_inv _ _ _ _ _ H)
        as [(_ & N) | (_ & [-> | (-> & _)])];
        [exfalso; exact (N L) | left; reflexivity | right; reflexivity].
  - intros. unfold compute_derivatives. rewrite from_quat_zeros.
    reflexivity.
Qed.

(** X3: the dictionary of intermediate quantities is never read at a key
    that has not been written, nor for a value of another kind: on every
    store, state and time the evaluation raises neither a KeyError nor a
    TypeError. *)
Theorem no_dict_errors (rejects_nan : bool) (time : float)
    (coordinates : list float) (s : stateful.store) :
  fst (stateful.compute_derivatives rejects_nan time coordinates s)
  <> Raise KeyError
  /\ fst (stateful.compute_derivatives rejects_nan time coordinates s)
     <> Raise TypeError.
Proof.
  destruct (compute_derivatives_run rejects_nan time coordinates s)
    as (ds & ->).
  cbn [fst].
  split; intro H;
    destruct (compute_derivatives_raise_inv _ _ _ _ _ H)
      as [(E & _) | (_ & [E | (E & _)])]; discriminate E.
Qed.

(** ** A rate of norm zero *)

(** X2: when the norm of the combined angular rate is zero, the quaternion
    derivative is the zero quaternion, nothing is made of the orientation
    (the rotation object is not read), and the rest of the dictionary is
    what it is on every state. *)
Theorem zero_rate_derivative (rejects_nan : bool) (self : EOM)
    (velocity ang_velocity : np.array3) (rotation : Rotation.t)
    (res : Forces) :
  np.norm (angular_rate self velocity ang_velocity res) = fin 0 ->
  compute_torques rejects_nan self velocity ang_velocity rotation res
  = bind (compute_wobble_precession self ang_velocity
            (torque_scale self velocity))
         (fun T =>
            Ok {| forces := res;
                  torque_amplitude := torque_scale self velocity;
                  T := T;
                  dq := np.mk4 (fin 0) (fin 0) (fin 0) (fin 0) |}).
Proof.
  intro H. apply compute_torques_zero_rate, H.
Qed.

Lemma zero_rate_derivative_witness :
  compute_torques true scenario_eom (np.fin3 (vec.mk3 10 0 0))
    (np.mk3 (fin 0) (fin 0) (fin 50)) identity_rotation
    (compute_forces scenario_eom identity_rotation (np.fin3 (vec.mk3 10 0 0))
       (np.mk3 (fin 0) (fin 0) (fin 50)))
  = bind (compute_wobble_precession scenario_eom
            (np.mk3 (fin 0) (fin 0) (fin 50))
            (torque_scale scenario_eom (np.fin3 (vec.mk3 10 0 0))))
         (fun T =>
            Ok {| forces :=
                    compute_forces scenario_eom identity_rotation
                      (np.fin3 (vec.mk3 10 0 0))
                      (np.mk3 (fin 0) (fin 0) (fin 50));
                  torque_amplitude :=
                    torque_scale scenario_eom (np.fin3 (vec.mk3 10 0 0));
                  T := T;
                  dq := np.mk4 (fin 0) (fin 0) (fin 0) (fin 0) |}).
Proof.
  apply (zero_rate_derivative true scenario_eom (np.fin3 (vec.mk3 10 0 0))
           (np.mk3 (fin 0) (fin 0) (fin 50)) identity_rotation).
  rewrite (scenario_angular_rate 0 0), norm_fin3, norm_axis by lra.
  reflexivity.
Defined.

(** ** Without air *)






(** ** The opposite quaternion *)

Lemma inf_of_sign_opp (a : R) : inf_of_sign (- a) = fneg (inf_of_sign a).
Proof.
  unfold inf_of_sign.
  destruct (Rlt_dec 0 (- a)), (Rlt_dec (- a) 0), (Rlt_dec 0 a),
    (Rlt_dec a 0); try reflexivity; lra.
Qed.

Lemma fneg_fneg (x : float) : fneg (fneg x) = x.
Proof. destruct x; simpl; try reflexivity. f_equal. ring. Qed.

Lemma fmul_fneg_r (x y : float) : fmul x (fneg y) = fneg (fmul x y).
Proof.
  destruct x, y; cbn [fmul fneg]; try reflexivity;
    rewrite ?inf_of_sign_opp, ?fneg_fneg; try reflexivity.
  f_equal. ring.
Qed.

Lemma fmul_fneg_l (x y : float) : fmul (fneg x) y = fneg (fmul x y).
Proof.
  destruct x, y; cbn [fmul fneg]; try reflexivity;
    rewrite ?inf_of_sign_opp, ?fneg_fneg; try reflexivity.
  f_equal. ring.
Qed.

Lemma fadd_fneg (x y : float) : fadd (fneg x) (fneg y) = fneg (fadd x y).
Proof. destruct x, y; cbn [fadd fneg]; try reflexivity. f_equal. ring. Qed.

Lemma fdiv_fneg_l (x y : float) : fdiv (fneg x) y = fneg (fdiv x y).
Proof.
  destruct x, y; cbn [fdiv fneg]; try reflexivity.
  - destruct (Req_dec_T r0 0).
    + apply inf_of_sign_opp.
    + cbn [fneg]. f_equal. field. assumption.
  - f_equal. ring.
  - f_equal. ring.
  - destruct (Rlt_dec r 0); reflexivity.
  - destruct (Rlt_dec r 0); reflexivity.
Qed.

Lemma fmul_fneg_fneg (x y : float) : fmul (fneg x) (fneg y) = fmul x y.
Proof. rewrite fmul_fneg_l, fmul_fneg_r, fneg_fneg. reflexivity. Qed.

Lemma compose_quat_neg4 (p q : np.array4) :
  Rotation.compose_quat p (neg4 q) = neg4 (Rotation.compose_quat p q).
Proof.
  destruct p as [p0 p1 p2 p3], q as [q0 q1 q2 q3].
  unfold Rotation.compose_quat, neg4, np.cross, np.dot, fsub.
  cbn [np.i0 np.i1 np.i2 np.j0 np.j1 np.j2 np.j3].
  rewrite !fmul_fneg_r, !fmul_fneg_l, !fadd_fneg. reflexivity.
Qed.

Lemma norm4_neg4 (q : np.array4) : np.norm4 (neg4 q) = np.norm4 q.
Proof.
  unfold np.norm4, np.dot4, neg4. cbn [np.j0 np.j1 np.j2 np.j3].
  rewrite !fmul_fneg_fneg. reflexivity.
Qed.

Lemma divs4_neg4 (q : np.array4) (s : float) :
  np.divs4 (neg4 q) s = neg4 (np.divs4 q s).
Proof.
  unfold np.divs4, neg4. cbn [np.j0 np.j1 np.j2 np.j3].
  rewrite !fdiv_fneg_l. reflexivity.
Qed.

Lemma from_quat_neg4 (rejects_nan : bool) (q : np.array4) :
  Rotation.from_quat rejects_nan (neg4 q)
  = map_result (fun r => Rotation.mk (neg4 (Rotation.quat r)))
      (Rotation.from_quat rejects_nan q).
Proof.
  unfold Rotation.from_quat. cbv zeta. rewrite norm4_neg4.
  destruct (feqb _ _); [reflexivity |].
  destruct (isnan _ && rejects_nan)%bool; [reflexivity |].
  cbn [map_result Rotation.quat]. rewrite divs4_neg4. reflexivity.
Qed.

(** the matrix of a quaternion is that of its opposite *)
Lemma as_matrix_neg4 (q : np.array4) :
  Rotation.as_matrix (Rotation.mk (neg4 q)) = Rotation.as_matrix (Rotation.mk q).
Proof.
  unfold Rotation.as_matrix, neg4. cbv zeta.
  cbn [Rotation.quat np.j0 np.j1 np.j2 np.j3].
  rewrite !fmul_fneg_fneg. reflexivity.
Qed.

(** the force step sees the orientation through its matrix only *)
Lemma compute_forces_matrix (self : EOM) (r1 r2 : Rotation.t)
    (velocity ang_velocity : np.array3) :
  Rotation.as_matrix r1 = Rotation.as_matrix r2 ->
  compute_forces self r1 velocity ang_velocity
  = compute_forces self r2 velocity ang_velocity.
Proof.
  intro H. unfold compute_forces, calculate_intermediate_quantities.
  cbv zeta. rewrite H. reflexivity.
Qed.

Lemma muls4_neg4 (q : np.array4) (s : float) :
  np.muls4 (neg4 q) s = neg4 (np.muls4 q s).
Proof.
  unfold np.muls4, neg4. cbn [np.j0 np.j1 np.j2 np.j3].
  rewrite !fmul_fneg_l. reflexivity.
Qed.

Lemma compute_torques_neg4 (rejects_nan : bool) (self : EOM)
    (velocity ang_velocity : np.array3) (q : np.array4) (res : Forces) :
  compute_torques rejects_nan self velocity ang_velocity
    (Rotation.mk (neg4 q)) res
  = map_result
      (fun t => {| forces := forces t;
                   torque_amplitude := torque_amplitude t;
                   T := T t;
                   dq := neg4 (dq t) |})
      (compute_torques rejects_nan self velocity ang_velocity
         (Rotation.mk q) res).
Proof.
  unfold compute_torques. cbv zeta.
  destruct (math.isclose _ _) eqn:Hc.
  - apply isclose_0_iff in Hc. rewrite Hc, from_quat_identity.
    cbn [bind].
    destruct (compute_wobble_precession _ _ _) as [T0 | e];
      cbn [bind map_result forces torque_amplitude T dq]; [| reflexivity].
    do 2 f_equal.
    apply array4_eq; unfold identity_rotation, Rotation.as_quat, neg4;
      cbn [Rotation.quat np.muls4 np.divs4 np.j0 np.j1 np.j2 np.j3 fmul];
      rewrite !fdiv_fin by lra; cbn [fneg]; f_equal; field.
  - destruct (Rotation.from_quat _ _) as [wrot | e]; cbn [bind];
      [| reflexivity].
    unfold Rotation.mul. cbn [Rotation.quat].
    rewrite compose_quat_neg4, from_quat_neg4.
    destruct (Rotation.from_quat _ _) as [r | e];
      cbn [bind map_result]; [| reflexivity].
    destruct (compute_wobble_precession _ _ _) as [T0 | e];
      cbn [bind map_result forces torque_amplitude T dq]; [| reflexivity].
    unfold Rotation.as_quat. cbn [Rotation.quat].
    rewrite muls4_neg4, divs4_neg4. reflexivity.
Qed.

(** X12: replacing the quaternion of a state by its opposite (the same
    rotation) leaves the velocity, the linear acceleration and the angular
    acceleration entries of the derivative as they are and negates its
    four quaternion entries; an exception stays the same exception.  This
    holds for all floats, the special values included. *)
Theorem quaternion_sign_flip (rejects_nan : bool) (self : EOM)
    (time x y z vx vy vz qx qy qz qw dphi dtheta dgamma : float) :
  compute_derivatives rejects_nan self time
    [x; y; z; vx; vy; vz; fneg qx; fneg qy; fneg qz; fneg qw;
     dphi; dtheta; dgamma]
  = map_result negate_dq
      (compute_derivatives rejects_nan self time
         [x; y; z; vx; vy; vz; qx; qy; qz; qw; dphi; dtheta; dgamma]).
Proof.
  unfold compute_derivatives.
  change (np.mk4 (fneg qx) (fneg qy) (fneg qz) (fneg qw))
    with (neg4 (np.mk4 qx qy qz qw)).
  rewrite from_quat_neg4.
  destruct (Rotation.from_quat _ _) as [[rq] | e];
    cbn [bind map_result Rotation.quat]; [| reflexivity].
  rewrite (compute_forces_matrix self (Rotation.mk (neg4 rq)) (Rotation.mk rq))
    by apply as_matrix_neg4.
  rewrite compute_torques_neg4.
  destruct (compute_torques _ _ _ _ _ _) as [t | e];
    cbn [bind map_result]; reflexivity.
Qed.
